(** * github_comments/pr_comments.py: pagination and flattening of review comments

    A shallow embedding of [src/github_comments/pr_comments.py]: the values
    that [response.json()] hands to the program, the exceptions the program
    can raise on them, the flattener [_parse_response], the pagination loop
    of [get_pr_comments] over a scripted transport, the commit cell of
    [display_comments] and the token check of [main]. *)

From stdpp Require Import gmap strings list fin_maps pretty.
From Stdlib Require Import ZArith Ascii String.

#[local] Set Warnings "-register-all".
#[local] Open Scope string_scope.
#[local] Open Scope list_scope.

(** ** Python values obtained from JSON

    [json.loads] yields [None], [bool], [int], [str], [list] and [dict] with
    string keys.  A character of a [str] is one [ascii] here; numbers are the
    integers (the program only ever tests a number for truth). *)

Inductive json : Type :=
| JNull
| JBool (b : bool)
| JNum (z : Z)
| JStr (s : string)
| JArr (l : list json)
| JObj (m : gmap string json).

(** ** Exceptions *)

Inductive exn : Type :=
| KeyError (key : string)
| TypeError
| AttributeError
| ValueError (msg : string)
| RequestException
| LibraryError (name : string).

Inductive result (A : Type) : Type :=
| Ok (a : A)
| Raise (e : exn).
Arguments Ok {A} a.
Arguments Raise {A} e.

#[export] Instance result_ret : MRet result := fun _ a => Ok a.
#[export] Instance result_bind : MBind result := fun _ _ f r =>
  match r with Ok a => f a | Raise e => Raise e end.
#[export] Instance result_fmap : FMap result := fun _ _ f r =>
  match r with Ok a => Ok (f a) | Raise e => Raise e end.

Definition raises {A} (r : result A) : Prop := exists e, r = Raise e.

(** [for x in xs: body], the loop state threaded through the body; an
    exception leaves the loop at once. *)
Fixpoint for_each {S A} (body : S -> A -> result S) (s : S) (xs : list A) : result S :=
  match xs with
  | [] => Ok s
  | x :: rest => s' ← body s x; for_each body s' rest
  end.

(** [[f x for x in xs]] with the first exception propagated. *)
Fixpoint traverse {A B} (f : A -> result B) (xs : list A) : result (list B) :=
  match xs with
  | [] => Ok []
  | x :: rest => y ← f x; ys ← traverse f rest; Ok (y :: ys)
  end.

(** ** The operations the program applies to those values *)

(** [bool(x)]: [None], [False], [0] and empty containers are false. *)
Definition py_truthy (x : json) : bool :=
  match x with
  | JNull => false
  | JBool b => b
  | JNum z => negb (z =? 0)%Z
  | JStr s => negb (String.length s =? 0)%nat
  | JArr l => negb (List.length l =? 0)%nat
  | JObj m => negb (size m =? 0)%nat
  end.

(** [x[key]] with a string key: only a dict can be subscripted by a string. *)
Definition py_getitem (x : json) (key : string) : result json :=
  match x with
  | JObj m => match m !! key with Some v => Ok v | None => Raise (KeyError key) end
  | _ => Raise TypeError
  end.

(** [x.get(key, default)]: only a dict has the method. *)
Definition py_get (x : json) (key : string) (dflt : json) : result json :=
  match x with
  | JObj m => Ok (default dflt (m !! key))
  | _ => Raise AttributeError
  end.

(** [iter(x)]: a list yields its items, a dict its keys, a str its
    characters; nothing else is iterable.  The keys come in the order of the
    map, not of insertion: the program subscripts every item it iterates by
    a string or calls [get] on it, which no key supports, so only whether
    there is a key can be observed. *)
Definition py_iter (x : json) : result (list json) :=
  match x with
  | JArr l => Ok l
  | JObj m => Ok ((fun kv => JStr kv.1) <$> map_to_list m)
  | JStr s => Ok ((fun c => JStr (String c EmptyString)) <$> list_ascii_of_string s)
  | _ => Raise TypeError
  end.

(** ** The Comment dataclass

    The dataclass checks no types: each field holds whatever value the
    response carried, and an absent optional field is [None]. *)

Record Comment : Type := mkComment {
  author : json;
  body : json;
  created_at : json;
  url : json;
  commit_id : json;
  commit_message : json
}.

(** [x[:7]]: a prefix of a str or of a list; no other value from JSON can
    be sliced (a dict raises too, TypeError before Python 3.12 and KeyError
    from then on; it is TypeError here). *)
Definition py_slice7 (x : json) : result json :=
  match x with
  | JStr s => Ok (JStr (String.substring 0 7 s))
  | JArr l => Ok (JArr (take 7 l))
  | _ => Raise TypeError
  end.

(** [Comment.short_commit_id] *)
Definition short_commit_id (self : Comment) : result json :=
  if py_truthy (commit_id self) then py_slice7 (commit_id self) else Ok JNull.

(** ** GitHubPRCommentsClient._parse_response *)

(** The body of the inner loop: the [Comment(...)] built from one comment
    record, its arguments evaluated left to right after [commit_data]. *)
Definition Comment_of (comment : json) : result Comment :=
  commit_data ← py_get comment "originalCommit" (JObj ∅);
  a ← py_getitem comment "author";
  author ← (if py_truthy a then py_getitem a "login" else Ok (JStr "unknown"));
  body ← py_getitem comment "body";
  created_at ← py_getitem comment "createdAt";
  url ← py_getitem comment "url";
  commit_id ← py_get commit_data "oid" JNull;
  commit_message ← py_get commit_data "message" JNull;
  Ok (mkComment author body created_at url commit_id commit_message).

(** [filter_type == 'unresolved' and thread["isResolved"]], as the [if]
    tests it; [and] does not evaluate its right operand when the left one
    is false. *)
Definition thread_skipped (filter_type : string) (thread : json) : result bool :=
  if String.eqb filter_type "unresolved"
  then py_truthy <$> py_getitem thread "isResolved"
  else Ok false.

(** The inner [for comment in thread["comments"]["nodes"]] loop, appending
    to [comments]. *)
Definition append_thread_comments (comments : list Comment) (thread : json)
  : result (list Comment) :=
  cs ← py_getitem thread "comments";
  nodes ← py_getitem cs "nodes";
  records ← py_iter nodes;
  for_each (fun comments comment =>
              c ← Comment_of comment; Ok (comments ++ [c])) comments records.

Definition _parse_response (pr_data : json) (filter_type : string)
  : result (list Comment) :=
  rt ← py_getitem pr_data "reviewThreads";
  nodes ← py_getitem rt "nodes";
  threads ← py_iter nodes;
  for_each (fun comments thread =>
              skip ← thread_skipped filter_type thread;
              if skip : bool then Ok comments
              else append_thread_comments comments thread) [] threads.

(** ** GitHubPRCommentsClient.execute_query over a scripted transport

    The network is a finite script of responses, each the parsed body of a
    successful POST or the exception that [requests.post],
    [raise_for_status] or [response.json] raises.  Every call is recorded
    with the variables it sent; a call made when the script is used up fails
    like a refused connection. *)

Record Variables : Type := mkVariables {
  var_owner : string;
  var_name : string;
  var_pull_number : Z;
  var_review_after : json
}.

Record Transport : Type := mkTransport {
  pending : list (result json);
  sent : list Variables
}.

Definition execute_query (variables : Variables) (t : Transport)
  : result json * Transport :=
  match pending t with
  | [] => (Raise RequestException, mkTransport [] (sent t ++ [variables]))
  | response :: rest => (response, mkTransport rest (sent t ++ [variables]))
  end.

(** ** GitHubPRCommentsClient.get_pr_comments *)

(** One pass through the body of [while True], after [execute_query] has
    returned [data]: the new [all_comments] and the new [review_cursor]. *)
Definition loop_body (filter_type : string) (data : json) (all_comments : list Comment)
  : result (list Comment * json) :=
  d ← py_getitem data "data";
  r ← py_getitem d "repository";
  pr_data ← py_getitem r "pullRequest";
  page_comments ← _parse_response pr_data filter_type;
  rt ← py_getitem pr_data "reviewThreads";
  review_page_info ← py_getitem rt "pageInfo";
  has_next ← py_getitem review_page_info "hasNextPage";
  review_cursor ← (if py_truthy has_next
                   then py_getitem review_page_info "endCursor"
                   else Ok JNull);
  Ok (all_comments ++ page_comments, review_cursor).

(** The [while True] loop.  Each pass sends one request, so the loop is
    written by recursion on the responses still to come; the first two
    lines of the match are [execute_query] unfolded (see
    [while_true_execute_query]). *)
Fixpoint while_true (owner repo : string) (pr_number : Z) (filter_type : string)
    (pending : list (result json)) (sent : list Variables)
    (all_comments : list Comment) (review_cursor : json)
  : result (list Comment) * Transport :=
  let variables := mkVariables owner repo pr_number review_cursor in
  match pending with
  | [] => (Raise RequestException, mkTransport [] (sent ++ [variables]))
  | response :: rest =>
      let t := mkTransport rest (sent ++ [variables]) in
      match data ← response; loop_body filter_type data all_comments with
      | Raise e => (Raise e, t)
      | Ok (all_comments, review_cursor) =>
          if py_truthy review_cursor
          then while_true owner repo pr_number filter_type rest (sent ++ [variables])
                          all_comments review_cursor
          else (Ok all_comments, t)
      end
  end.

Definition get_pr_comments (owner repo : string) (pr_number : Z)
    (filter_type : string) (t : Transport) : result (list Comment) * Transport :=
  while_true owner repo pr_number filter_type (pending t) (sent t) [] JNull.

(** ** CommentsDisplay.display_comments *)

Definition LF : ascii := "010"%char.

(** [s.split(sep)] for a one-character separator. *)
Fixpoint py_split (sep : ascii) (s : string) : list string :=
  match s with
  | EmptyString => [EmptyString]
  | String c rest =>
      let parts := py_split sep rest in
      if Ascii.eqb c sep then EmptyString :: parts
      else match parts with
           | p :: ps => String c p :: ps
           | [] => [String c EmptyString]
           end
  end.

(** [s.replace('Z', '+00:00')] *)
Fixpoint replace_Z (s : string) : string :=
  match s with
  | EmptyString => EmptyString
  | String c rest =>
      if Ascii.eqb c "Z"%char then ("+00:00" ++ replace_Z rest)%string
      else String c (replace_Z rest)
  end.

Inductive printed : Type :=
| PanelOut (text : string)
| TableOut (rows : list (string * json * string * json * json))
| LineOut (text : string)
| RequestErrorOut (e : exn)
| ErrorOut (e : exn).

(** The value of [parse_arguments]. *)
Record Namespace : Type := mkNamespace {
  ns_owner : string;
  ns_repo : string;
  ns_pr : Z;
  ns_filter : string
}.

(** How [main] ends: it returns with what it printed, or an exception
    leaves it. *)
Inductive outcome : Type :=
| Returned (console : list printed)
| Uncaught (e : exn).

Definition token_not_set : string :=
  "GH_TOKEN environment variable not set. Please set it with your GitHub Personal Access Token.".

Section Display.

(** [str(x)] of a value that is not a [str], as an f-string formats it. *)
Variable py_str : json -> string.

(** [datetime.fromisoformat(s).strftime('%Y-%m-%d %H:%M:%S UTC')] *)
Variable fromisoformat_strftime : string -> result string.

(** rich, as far as the program calls it, each call returning or raising:
    [Text(x, overflow="fold")] builds a text from [x] (it raises on a value
    that is not a str); [table.add_row(...)] takes the five cells of a row
    (it raises NotRenderableError on a cell it cannot render);
    [Console.print(x)] renders [x] (it raises MarkupError on text whose
    markup it cannot parse). *)
Variable rich_Text : json -> result unit.
Variable add_row : string * json * string * json * json -> result unit.
Variable console_print : printed -> result unit.

Definition format_value (x : json) : string :=
  match x with JStr s => s | _ => py_str x end.

(** [Comment.formatted_date] *)
Definition formatted_date (self : Comment) : result string :=
  match created_at self with
  | JStr s => fromisoformat_strftime (replace_Z s)
  | _ => Raise AttributeError
  end.

(** The local [commit_msg] of the loop, computed when [commit_id] is true. *)
Definition commit_msg (comment : Comment) : result string :=
  if py_truthy (commit_message comment)
  then match commit_message comment with
       | JStr s => Ok (hd EmptyString (py_split LF s))
       | _ => Raise AttributeError
       end
  else Ok "No commit message".

(** The local [commit_info] of the loop. *)
Definition commit_info (comment : Comment) : result string :=
  if py_truthy (commit_id comment)
  then msg ← commit_msg comment;
       short ← short_commit_id comment;
       Ok (format_value short ++ String LF msg)%string
  else Ok "N/A".

(** [console.print(x)] on a console that has shown [console] so far: what
    it has shown afterwards, and whether the call returned. *)
Definition print (x : printed) (console : list printed) : list printed * result unit :=
  match console_print x with
  | Ok _ => (console ++ [x], Ok tt)
  | Raise e => (console, Raise e)
  end.

(** One pass of [for comment in comments]: [commit_info], then the
    arguments of [add_row] from left to right, then the call.  The fourth
    cell is the Text built from the body; the row keeps the body for it. *)
Definition add_comment_row (rows : list (string * json * string * json * json))
    (comment : Comment) : result (list (string * json * string * json * json)) :=
  info ← commit_info comment;
  date ← formatted_date comment;
  _ ← rich_Text (body comment);
  _ ← add_row (date, author comment, info, body comment, url comment);
  Ok (rows ++ [(date, author comment, info, body comment, url comment)]).

(** [display_comments] on a console that has shown [console] so far.  The
    table is printed once all its rows are in, and the total line after it:
    an exception in the loop leaves the console as it was, one in the second
    print leaves the table on it. *)
Definition display_comments (comments : list Comment) (console : list printed)
  : list printed * result unit :=
  match comments with
  | [] => print (PanelOut "No unresolved comments found") console
  | _ =>
      match for_each add_comment_row [] comments with
      | Raise e => (console, Raise e)
      | Ok rows =>
          let filter_type :=
            if (List.length comments =? 1)%nat then "unresolved" else "total" in
          match print (TableOut rows) console with
          | (console', Ok _) =>
              print (LineOut (String LF "[bold green]Total " ++ filter_type
                              ++ " comments:[/] " ++ pretty (List.length comments))%string)
                    console'
          | failed => failed
          end
      end
  end.

(** ** main *)

(** The line an [except] clause prints for [e]: the first clause takes the
    exceptions of requests, the second every other one. *)
Definition error_line (e : exn) : printed :=
  match e with
  | RequestException => RequestErrorOut e
  | _ => ErrorOut e
  end.

(** The body of [try]: what the console has shown when it ends, how it
    ends, and the transport it leaves. *)
Definition try_body (args : Namespace) (t : Transport)
  : list printed * result unit * Transport :=
  let '(r, t') := get_pr_comments (ns_owner args) (ns_repo args) (ns_pr args)
                                  (ns_filter args) t in
  (match r with
   | Ok comments => display_comments comments []
   | Raise e => ([], Raise e)
   end, t').

(** [main] after [parse_arguments] has returned [args]; [GH_TOKEN] is
    [os.environ.get("GH_TOKEN")].  An exception raised inside [try] is
    caught and its line printed; one raised by that print is not caught. *)
Definition main (args : Namespace) (GH_TOKEN : option string) (t : Transport)
  : outcome * Transport :=
  match GH_TOKEN with
  | Some github_token =>
      if negb (String.length github_token =? 0)%nat then
        let '(console, ended, t') := try_body args t in
        match ended with
        | Ok _ => (Returned console, t')
        | Raise e =>
            match print (error_line e) console with
            | (console', Ok _) => (Returned console', t')
            | (_, Raise e') => (Uncaught e', t')
            end
        end
      else (Uncaught (ValueError token_not_set), t)
  | None => (Uncaught (ValueError token_not_set), t)
  end.

End Display.

(** ** Views of a page, used to state the properties

    These name the sub-expressions of the code above; the lemmas of the next
    part relate the loops, which append to a list as they go, to these. *)

(** [pr_data["reviewThreads"]["nodes"]], as the outer loop iterates it. *)
Definition page_threads (pr_data : json) : result (list json) :=
  rt ← py_getitem pr_data "reviewThreads";
  nodes ← py_getitem rt "nodes";
  py_iter nodes.

(** [thread["comments"]["nodes"]], as the inner loop iterates it. *)
Definition thread_records (thread : json) : result (list json) :=
  cs ← py_getitem thread "comments";
  nodes ← py_getitem cs "nodes";
  py_iter nodes.

(** The comments of one thread, in the order of its records. *)
Definition thread_comments (thread : json) : result (list Comment) :=
  records ← thread_records thread;
  traverse Comment_of records.

(** The truth value of [thread["isResolved"]]. *)
Definition is_resolved (thread : json) : result bool :=
  py_truthy <$> py_getitem thread "isResolved".

(** The comments a thread contributes under a filter: none when it is
    skipped, all of them otherwise. *)
Definition included_of_thread (filter_type : string) (thread : json)
  : result (list Comment) :=
  skip ← thread_skipped filter_type thread;
  if skip : bool then Ok [] else thread_comments thread.

(** The included comments of a page as a concatenation: thread after thread,
    and within a thread record after record. *)
Definition included_comments (filter_type : string) (pr_data : json)
  : result (list Comment) :=
  threads ← page_threads pr_data;
  css ← traverse (included_of_thread filter_type) threads;
  Ok (List.concat css).

(** The threads of a page that carry a false [isResolved], given the flags
    of all its threads. *)
Definition unresolved_threads (threads : list json) (flags : list bool) : list json :=
  fst <$> filter (fun tb => negb tb.2 = true) (zip threads flags).

(** [data["data"]["repository"]["pullRequest"]] *)
Definition pull_request (data : json) : result json :=
  d ← py_getitem data "data";
  r ← py_getitem d "repository";
  py_getitem r "pullRequest".

(** What one response contributes to [all_comments]. *)
Definition flatten_page (filter_type : string) (data : json) : result (list Comment) :=
  pr_data ← pull_request data;
  _parse_response pr_data filter_type.

(** The included comments of one response, as a concatenation. *)
Definition page_included_comments (filter_type : string) (data : json)
  : result (list Comment) :=
  pr_data ← pull_request data;
  included_comments filter_type pr_data.

(** [pr_data["reviewThreads"]["pageInfo"]] of a response. *)
Definition page_info (data : json) : result json :=
  pr_data ← pull_request data;
  rt ← py_getitem pr_data "reviewThreads";
  py_getitem rt "pageInfo".

(** The truth value of [review_page_info["hasNextPage"]]. *)
Definition has_next_page (data : json) : result bool :=
  info ← page_info data;
  py_truthy <$> py_getitem info "hasNextPage".

(** [review_page_info["endCursor"]] *)
Definition end_cursor (data : json) : result json :=
  info ← page_info data;
  py_getitem info "endCursor".

(** The [review_cursor] a response leaves behind:
    [endCursor if hasNextPage else None]. *)
Definition next_cursor (data : json) : result json :=
  info ← page_info data;
  has_next ← py_getitem info "hasNextPage";
  if py_truthy has_next then py_getitem info "endCursor" else Ok JNull.

(** A page after which the loop goes on with cursor [c]: it flattens without
    an exception, reports a true [hasNextPage] and carries a true
    [endCursor] [c]. *)
Definition page_continues (filter_type : string) (data c : json) : Prop :=
  (exists cs, flatten_page filter_type data = Ok cs) /\
  has_next_page data = Ok true /\
  end_cursor data = Ok c /\ py_truthy c = true.


(** Building values. *)
Definition obj (kvs : list (string * json)) : json := JObj (list_to_map kvs).

(** The response whose pull request is [pr_data]. *)
Definition response_of (pr_data : json) : json :=
  obj [("data", obj [("repository", obj [("pullRequest", pr_data)])])].

(** A response with the top-level [comments] collection of its pull request
    replaced by [v]; a response of another shape is left as it is. *)
Definition with_top_comments (v : json) (data : json) : json :=
  match data with
  | JObj m0 =>
      match m0 !! "data" with
      | Some (JObj m1) =>
          match m1 !! "repository" with
          | Some (JObj m2) =>
              match m2 !! "pullRequest" with
              | Some (JObj m3) =>
                  JObj (<["data" :=
                    JObj (<["repository" :=
                      JObj (<["pullRequest" := JObj (<["comments" := v]> m3)]> m2)]> m1)]> m0)
              | _ => data
              end
          | _ => data
          end
      | _ => data
      end
  | _ => data
  end.

(** Two responses that differ at most in that collection. *)
Definition same_but_top_comments (data data' : result json) : Prop :=
  match data, data' with
  | Ok d, Ok d' => exists v, d' = with_top_comments v d
  | Raise e, Raise e' => e = e'
  | _, _ => False
  end.

(** A comment of a response comes from a review thread: it is built from
    a record of a thread of the page. *)
Definition from_review_thread (data : json) (cm : Comment) : Prop :=
  exists pr_data threads thread records record,
    pull_request data = Ok pr_data /\
    page_threads pr_data = Ok threads /\ thread ∈ threads /\
    thread_records thread = Ok records /\ record ∈ records /\
    Comment_of record = Ok cm.

(** Both commit fields are [None], or neither is. *)
Definition commit_fields_paired (cm : Comment) : Prop :=
  commit_id cm = JNull <-> commit_message cm = JNull.

(** ** Further views, for the presenter and the failure cases *)

(** [c in s], for a character [c]. *)
Fixpoint contains (c : ascii) (s : string) : bool :=
  match s with
  | EmptyString => false
  | String c' rest => if Ascii.eqb c' c then true else contains c rest
  end.

(** [sep.join(parts)] *)
Fixpoint py_join (sep : ascii) (parts : list string) : string :=
  match parts with
  | [] => EmptyString
  | p :: ps =>
      match ps with
      | [] => p
      | _ => (p ++ String sep (py_join sep ps))%string
      end
  end.

(** The row that [table.add_row] receives for one comment, when the pass
    of the loop that builds it returns. *)
Definition row_of (py_str : json -> string)
    (fromisoformat_strftime : string -> result string)
    (rich_Text : json -> result unit)
    (add_row : string * json * string * json * json -> result unit)
    (comment : Comment)
  : result (string * json * string * json * json) :=
  info ← commit_info py_str comment;
  date ← formatted_date fromisoformat_strftime comment;
  _ ← rich_Text (body comment);
  _ ← add_row (date, author comment, info, body comment, url comment);
  Ok (date, author comment, info, body comment, url comment).

(** A response on which a pass of the loop raises [e]: the transport raised
    it, or the page does while it is flattened, or its page information does
    after the page was flattened. *)
Definition response_fails (filter_type : string) (response : result json) (e : exn)
  : Prop :=
  response = Raise e \/
  exists data, response = Ok data /\
    (flatten_page filter_type data = Raise e \/
     ((exists cs, flatten_page filter_type data = Ok cs) /\
      next_cursor data = Raise e)).

(** A thread with its [isResolved] entry set to [v]. *)
Definition set_resolved (v : json) (thread : json) : json :=
  match thread with
  | JObj m => JObj (<["isResolved" := v]> m)
  | _ => thread
  end.

(** The variables of a request carry the arguments of [get_pr_comments]. *)
Definition request_for (owner repo : string) (pr_number : Z) (v : Variables) : Prop :=
  var_owner v = owner /\ var_name v = repo /\ var_pull_number v = pr_number.

(** ** Pages and records used as examples *)

Definition thread_of (resolved : bool) (records : list json) : json :=
  obj [("isResolved", JBool resolved);
       ("comments", obj [("nodes", JArr records)])].

Definition page_of (threads : list json) (has_next : json) (cursor : json) : json :=
  obj [("reviewThreads",
        obj [("nodes", JArr threads);
             ("pageInfo", obj [("endCursor", cursor); ("hasNextPage", has_next)])])].

(** The page of the end-to-end example.  The example fixes the authors, the
    resolution flags and bob's commit; the body, timestamp and URL of the two
    comments are left open. *)
Definition alice_record (b d u : json) : json :=
  obj [("author", obj [("login", JStr "alice")]);
       ("body", b); ("createdAt", d); ("url", u)].

Definition bob_record (b d u : json) : json :=
  obj [("author", obj [("login", JStr "bob")]);
       ("body", b); ("createdAt", d); ("url", u);
       ("originalCommit",
        obj [("oid", JStr "abc1234567");
             ("message", JStr ("fix bug" ++ String LF "more detail")%string)])].

Definition example_page (ab ad au bb bd bu : json) : json :=
  page_of [thread_of true [alice_record ab ad au];
           thread_of false [bob_record bb bd bu]]
          (JBool false) JNull.

Definition alice (b d u : json) : Comment :=
  mkComment (JStr "alice") b d u JNull JNull.

Definition bob (b d u : json) : Comment :=
  mkComment (JStr "bob") b d u (JStr "abc1234567")
            (JStr ("fix bug" ++ String LF "more detail")%string).

Definition a_body : json := JStr "looks good".
Definition a_date : json := JStr "2024-01-01T10:00:00Z".
Definition a_url : json := JStr "https://example.test/c/1".
Definition b_body : json := JStr "please rename".
Definition b_date : json := JStr "2024-01-02T11:30:00Z".
Definition b_url : json := JStr "https://example.test/c/2".

Definition page_AB : json := example_page a_body a_date a_url b_body b_date b_url.

(** A record whose author is null (a deleted account). *)
Definition ghost_record : json :=
  obj [("author", JNull); ("body", a_body); ("createdAt", a_date); ("url", a_url)].


(** A record whose original commit carries an oid and no message. *)
Definition oid_only_record : json :=
  obj [("author", JNull); ("body", a_body); ("createdAt", a_date); ("url", a_url);
       ("originalCommit", obj [("oid", JStr "abc1234567")])].

(** A record whose original commit is null. *)
Definition null_commit_record : json :=
  obj [("author", JNull); ("body", a_body); ("createdAt", a_date); ("url", a_url);
       ("originalCommit", JNull)].

(** The example response with a top-level comments collection holding one
    general comment, which no review thread carries. *)
Definition carol_record : json :=
  obj [("author", obj [("login", JStr "carol")]);
       ("body", JStr "general remark");
       ("createdAt", JStr "2024-01-03T09:00:00Z");
       ("url", JStr "https://example.test/c/3")].

Definition top_comments : json :=
  obj [("nodes", JArr [carol_record]);
       ("pageInfo", obj [("endCursor", JStr "t1"); ("hasNextPage", JBool false)])].

Definition response_AB_with_top_comments : json :=
  with_top_comments top_comments (response_of page_AB).

Definition closing_page : json := response_of (page_of [] (JBool false) JNull).

(** * Properties *)

(** ** The result monad and the two loop combinators *)

Lemma bind_Ok {A B} (r : result A) (f : A -> result B) (b : B) :
  r ≫= f = Ok b <-> exists a, r = Ok a /\ f a = Ok b.
Proof.
  destruct r as [a|e]; simpl; split.
  - intros H. exists a. auto.
  - intros (a' & Ha & Hf). now inversion Ha; subst.
  - discriminate.
  - intros (a' & Ha & _). discriminate.
Qed.

Lemma bind_assoc {A B C} (r : result A) (f : A -> result B) (g : B -> result C) :
  (r ≫= f) ≫= g = r ≫= (fun a => f a ≫= g).
Proof. now destruct r. Qed.

Lemma bind_ext {A B} (r : result A) (f g : A -> result B) :
  (forall a, f a = g a) -> r ≫= f = r ≫= g.
Proof. intros H. destruct r; simpl; auto. Qed.

Lemma traverse_app {A B} (f : A -> result B) (xs ys : list A) :
  traverse f (xs ++ ys) =
  xs' ← traverse f xs; ys' ← traverse f ys; Ok (xs' ++ ys').
Proof.
  induction xs as [|x xs IH]; simpl.
  - now destruct (traverse f ys).
  - destruct (f x) as [y|e]; simpl; [|reflexivity].
    rewrite IH. destruct (traverse f xs); simpl; [|reflexivity].
    now destruct (traverse f ys).
Qed.

Lemma traverse_Ok {A B} (f : A -> result B) (xs : list A) (ys : list B) :
  traverse f xs = Ok ys <-> Forall2 (fun x y => f x = Ok y) xs ys.
Proof.
  revert ys. induction xs as [|x xs IH]; intros ys; simpl.
  - split.
    + intros H. inversion H. constructor.
    + intros H. inversion H. reflexivity.
  - split.
    + intros H. apply bind_Ok in H as (y & Hy & H).
      apply bind_Ok in H as (ys' & Hys & H). inversion H; subst.
      constructor; [assumption|]. now apply IH.
    + intros H. inversion H as [|? y ? ys' Hy Hys]; subst.
      rewrite Hy. simpl. apply IH in Hys. now rewrite Hys.
Qed.

Lemma traverse_raises {A B} (f : A -> result B) (xs : list A) (x : A) :
  x ∈ xs -> raises (f x) -> raises (traverse f xs).
Proof.
  intros Hin [e He]. induction xs as [|y xs IH]; simpl.
  - now apply elem_of_nil in Hin.
  - apply elem_of_cons in Hin as [->|Hin].
    + rewrite He. now exists e.
    + destruct (f y) as [b|e1]; simpl; [|now exists e1].
      destruct (IH Hin) as [e1 ->]. simpl. now exists e1.
Qed.

Lemma traverse_ext {A B} (f g : A -> result B) (xs : list A) :
  (forall x, f x = g x) -> traverse f xs = traverse g xs.
Proof. intros H. induction xs as [|x xs IH]; simpl; [reflexivity|]. now rewrite H, IH. Qed.

(** A loop that appends one item per pass builds the list of its items. *)
Lemma for_each_append {A B} (f : A -> result B) (acc : list B) (xs : list A) :
  for_each (fun acc x => y ← f x; Ok (acc ++ [y])) acc xs =
  ys ← traverse f xs; Ok (acc ++ ys).
Proof.
  revert acc. induction xs as [|x xs IH]; intros acc; simpl.
  - now rewrite app_nil_r.
  - destruct (f x) as [y|e]; simpl; [|reflexivity].
    rewrite IH. destruct (traverse f xs) as [ys|e]; simpl; [|reflexivity].
    now rewrite <- app_assoc.
Qed.

(** A loop that extends the list by a chunk per pass builds the
    concatenation of the chunks. *)
Lemma for_each_extend {A B} (f : A -> result (list B)) (acc : list B) (xs : list A) :
  for_each (fun acc x => ys ← f x; Ok (acc ++ ys)) acc xs =
  yss ← traverse f xs; Ok (acc ++ List.concat yss).
Proof.
  revert acc. induction xs as [|x xs IH]; intros acc; simpl.
  - now rewrite app_nil_r.
  - destruct (f x) as [ys|e]; simpl; [|reflexivity].
    rewrite IH. destruct (traverse f xs) as [yss|e]; simpl; [|reflexivity].
    now rewrite <- app_assoc.
Qed.

Lemma for_each_ext {S A} (f g : S -> A -> result S) (s : S) (xs : list A) :
  (forall s x, f s x = g s x) -> for_each f s xs = for_each g s xs.
Proof.
  intros H. revert s. induction xs as [|x xs IH]; intros s; simpl; [reflexivity|].
  rewrite H. destruct (g s x); simpl; auto.
Qed.

(** ** The flattener as a concatenation *)

Lemma append_thread_comments_eq (comments : list Comment) (thread : json) :
  append_thread_comments comments thread =
  cs ← thread_comments thread; Ok (comments ++ cs).
Proof.
  unfold append_thread_comments, thread_comments, thread_records.
  destruct (py_getitem thread "comments") as [cs|e]; simpl; [|reflexivity].
  destruct (py_getitem cs "nodes") as [nodes|e]; simpl; [|reflexivity].
  destruct (py_iter nodes) as [records|e]; simpl; [|reflexivity].
  apply for_each_append.
Qed.

Lemma parse_response_concat (pr_data : json) (filter_type : string) :
  _parse_response pr_data filter_type = included_comments filter_type pr_data.
Proof.
  unfold _parse_response, included_comments, page_threads.
  destruct (py_getitem pr_data "reviewThreads") as [rt|e]; simpl; [|reflexivity].
  destruct (py_getitem rt "nodes") as [nodes|e]; simpl; [|reflexivity].
  destruct (py_iter nodes) as [threads|e]; simpl; [|reflexivity].
  rewrite (for_each_ext _ (fun acc x => ys ← included_of_thread filter_type x; Ok (acc ++ ys))).
  - now rewrite for_each_extend.
  - intros acc th. unfold included_of_thread.
    destruct (thread_skipped filter_type th) as [[|]|e]; simpl; try reflexivity.
    + now rewrite app_nil_r.
    + apply append_thread_comments_eq.
Qed.

Lemma flatten_page_concat (filter_type : string) (data : json) :
  flatten_page filter_type data = page_included_comments filter_type data.
Proof.
  unfold flatten_page, page_included_comments.
  apply bind_ext. intros pr. apply parse_response_concat.
Qed.

(** ** Filtering *)

Lemma thread_skipped_other (filter_type : string) (thread : json) :
  filter_type <> "unresolved" -> thread_skipped filter_type thread = Ok false.
Proof.
  intros Hne. unfold thread_skipped.
  destruct (String.eqb_spec filter_type "unresolved"); [contradiction|reflexivity].
Qed.

Lemma included_of_thread_other (filter_type : string) (thread : json) :
  filter_type <> "unresolved" ->
  included_of_thread filter_type thread = thread_comments thread.
Proof. intros Hne. unfold included_of_thread. now rewrite thread_skipped_other. Qed.

Lemma included_of_thread_unresolved (thread : json) :
  included_of_thread "unresolved" thread =
  b ← is_resolved thread; if b : bool then Ok [] else thread_comments thread.
Proof. reflexivity. Qed.

(** With the flags of the threads known, the per-thread contributions under
    'unresolved' are those of the threads left after dropping the resolved
    ones. *)
Lemma included_unresolved (threads : list json) :
  forall (flags : list bool) (css : list (list Comment)),
    traverse is_resolved threads = Ok flags ->
    traverse thread_comments (unresolved_threads threads flags) = Ok css ->
    exists css', traverse (included_of_thread "unresolved") threads = Ok css' /\
                 List.concat css' = List.concat css.
Proof.
  induction threads as [|th threads IH]; intros flags css Hflags Hcss.
  - simpl in Hflags. inversion Hflags; subst. simpl in Hcss. inversion Hcss; subst.
    exists []. split; reflexivity.
  - simpl in Hflags. apply bind_Ok in Hflags as (b & Hb & Hflags).
    apply bind_Ok in Hflags as (bs & Hbs & Hflags). inversion Hflags; subst.
    unfold unresolved_threads in Hcss. simpl in Hcss.
    rewrite filter_cons in Hcss. simpl in Hcss.
    cbn [traverse]. rewrite included_of_thread_unresolved, Hb. simpl.
    destruct b; simpl in Hcss.
    + destruct (decide (false = true)) as [?|_]; [discriminate|].
      destruct (IH bs css Hbs Hcss) as (css' & -> & Hcat). simpl.
      exists ([] :: css'). split; [reflexivity|]. exact Hcat.
    + destruct (decide (true = true)) as [_|?]; [|contradiction].
      simpl in Hcss. apply bind_Ok in Hcss as (cs & Hcs & Hcss).
      apply bind_Ok in Hcss as (css0 & Hcss0 & Hcss). inversion Hcss; subst.
      rewrite Hcs. simpl.
      destruct (IH bs css0 Hbs Hcss0) as (css' & -> & Hcat). simpl.
      exists (cs :: css'). split; [reflexivity|]. simpl. now rewrite Hcat.
Qed.

(** C1.  Filter correctness.  On a page whose threads are [threads]: with
    filter 'unresolved' the output is the concatenation of the comments of
    the threads whose [isResolved] is false, so a resolved thread contributes
    no comment; with filter 'all' it is the concatenation of the comments of
    every thread, resolved or not. *)
Theorem filter_correctness (pr_data : json) (threads : list json) :
  page_threads pr_data = Ok threads ->
  (forall (flags : list bool) (css : list (list Comment)),
      traverse is_resolved threads = Ok flags ->
      traverse thread_comments (unresolved_threads threads flags) = Ok css ->
      _parse_response pr_data "unresolved" = Ok (List.concat css)) /\
  (forall css : list (list Comment),
      traverse thread_comments threads = Ok css ->
      _parse_response pr_data "all" = Ok (List.concat css)).
Proof.
  intros Hth. split.
  - intros flags css Hflags Hcss.
    rewrite parse_response_concat. unfold included_comments. rewrite Hth. simpl.
    destruct (included_unresolved threads flags css Hflags Hcss) as (css' & -> & Hcat).
    simpl. now rewrite Hcat.
  - intros css Hcss.
    rewrite parse_response_concat. unfold included_comments. rewrite Hth. simpl.
    rewrite (traverse_ext _ thread_comments).
    + now rewrite Hcss.
    + intros th. now apply included_of_thread_other.
Qed.

Lemma filter_correctness_witness :
  _parse_response page_AB "unresolved" = Ok [bob b_body b_date b_url] /\
  _parse_response page_AB "all" =
    Ok [alice a_body a_date a_url; bob b_body b_date b_url].
Proof.
  destruct (filter_correctness page_AB
              [thread_of true [alice_record a_body a_date a_url];
               thread_of false [bob_record b_body b_date b_url]] eq_refl)
    as [Hunresolved Hall].
  split.
  - apply (Hunresolved [true; false] [[bob b_body b_date b_url]]); reflexivity.
  - apply (Hall [[alice a_body a_date a_url]; [bob b_body b_date b_url]]); reflexivity.
Defined.

Lemma traverse_elem_of_l {A B} (f : A -> result B) (xs : list A) (ys : list B) (x : A) :
  traverse f xs = Ok ys -> x ∈ xs -> exists y, y ∈ ys /\ f x = Ok y.
Proof.
  intros Htr. apply traverse_Ok in Htr.
  induction Htr as [|x0 y xs ys Hxy _ IH]; intros Hin.
  - now apply elem_of_nil in Hin.
  - apply elem_of_cons in Hin as [->|Hin].
    + exists y. split; [apply list_elem_of_here|assumption].
    + destruct (IH Hin) as (y' & Hy' & Hf). exists y'.
      split; [now apply list_elem_of_further|assumption].
Qed.

Lemma elem_of_concat_2 {A} (x : A) (l : list A) (ls : list (list A)) :
  l ∈ ls -> x ∈ l -> x ∈ List.concat ls.
Proof.
  intros Hl Hx. induction ls as [|l0 ls IH]; simpl.
  - now apply elem_of_nil in Hl.
  - apply elem_of_app. apply elem_of_cons in Hl as [->|Hl]; [now left|right; auto].
Qed.

(** Under a filter other than 'unresolved' the flattener returns the
    comments of all the threads of the page, thread after thread. *)
Lemma parse_response_other (pr_data : json) (filter_type : string) :
  filter_type <> "unresolved" ->
  _parse_response pr_data filter_type =
  (threads ← page_threads pr_data;
   css ← traverse thread_comments threads;
   Ok (List.concat css)).
Proof.
  intros Hne. rewrite parse_response_concat. unfold included_comments.
  apply bind_ext. intros threads.
  rewrite (traverse_ext _ thread_comments); [reflexivity|].
  intros th. now apply included_of_thread_other.
Qed.

(** C10.  A filter_type other than the exact string 'unresolved' skips no
    thread.  The flattener returns (or raises) what it does under 'all';
    what it returns is the concatenation of the comments of every thread of
    the page, in order; so every comment of every thread of the page is in
    the output. *)
Theorem other_filter_is_all (pr_data : json) (filter_type : string) :
  filter_type <> "unresolved" ->
  _parse_response pr_data filter_type = _parse_response pr_data "all" /\
  _parse_response pr_data filter_type =
    (threads ← page_threads pr_data;
     css ← traverse thread_comments threads;
     Ok (List.concat css)) /\
  (forall (out : list Comment) (threads : list json) (thread : json)
          (cs : list Comment) (cm : Comment),
      _parse_response pr_data filter_type = Ok out ->
      page_threads pr_data = Ok threads -> thread ∈ threads ->
      thread_comments thread = Ok cs -> cm ∈ cs -> cm ∈ out).
Proof.
  intros Hne. split; [|split].
  - rewrite (parse_response_other pr_data filter_type Hne).
    now rewrite (parse_response_other pr_data "all").
  - now apply parse_response_other.
  - intros out threads thread cs cm Hout Hth Hin Hcs Hcm.
    rewrite (parse_response_other pr_data filter_type Hne), Hth in Hout.
    cbn [mbind result_bind] in Hout.
    apply bind_Ok in Hout as (css & Hcss & Hout). inversion Hout; subst out.
    destruct (traverse_elem_of_l _ _ _ _ Hcss Hin) as (cs' & Hcs' & Heq).
    rewrite Hcs in Heq. inversion Heq; subst cs'.
    now apply (elem_of_concat_2 cm cs css).
Qed.

Lemma other_filter_is_all_witness :
  _parse_response page_AB "resolved"
  = Ok [alice a_body a_date a_url; bob b_body b_date b_url] /\
  alice a_body a_date a_url ∈ [alice a_body a_date a_url; bob b_body b_date b_url].
Proof.
  destruct (other_filter_is_all page_AB "resolved") as (_ & Hconcat & Hall).
  { discriminate. }
  assert (_parse_response page_AB "resolved"
          = Ok [alice a_body a_date a_url; bob b_body b_date b_url]) as Hout.
  { rewrite Hconcat. reflexivity. }
  split; [exact Hout|].
  apply (Hall _ [thread_of true [alice_record a_body a_date a_url];
                 thread_of false [bob_record b_body b_date b_url]]
              (thread_of true [alice_record a_body a_date a_url])
              [alice a_body a_date a_url] _ Hout).
  - reflexivity.
  - apply list_elem_of_here.
  - reflexivity.
  - apply list_elem_of_here.
Defined.

(** ** The fields of a Comment *)

Lemma Comment_of_Ok_obj (comment : json) (cm : Comment) :
  Comment_of comment = Ok cm -> exists m, comment = JObj m.
Proof.
  destruct comment as [| | | | |m]; try discriminate. intros _. now exists m.
Qed.

(** What [Comment_of] returns, read off the record field by field. *)
Lemma Comment_of_Ok_fields (m : gmap string json) (cm : Comment) :
  Comment_of (JObj m) = Ok cm ->
  exists a,
    m !! "author" = Some a /\
    (if py_truthy a then py_getitem a "login" else Ok (JStr "unknown")) = Ok (author cm) /\
    m !! "body" = Some (body cm) /\
    m !! "createdAt" = Some (created_at cm) /\
    m !! "url" = Some (url cm) /\
    py_get (default (JObj ∅) (m !! "originalCommit")) "oid" JNull = Ok (commit_id cm) /\
    py_get (default (JObj ∅) (m !! "originalCommit")) "message" JNull
      = Ok (commit_message cm).
Proof.
  unfold Comment_of. cbn [py_get mbind result_bind py_getitem].
  destruct (m !! "author") as [a|]; [|discriminate]. cbn [mbind result_bind].
  destruct (if py_truthy a then py_getitem a "login" else Ok (JStr "unknown"))
    as [au|] eqn:Hau; [|discriminate]. cbn [mbind result_bind].
  destruct (m !! "body") as [b|]; [|discriminate]. cbn [mbind result_bind].
  destruct (m !! "createdAt") as [d|]; [|discriminate]. cbn [mbind result_bind].
  destruct (m !! "url") as [u|]; [|discriminate]. cbn [mbind result_bind].
  destruct (py_get (default (JObj ∅) (m !! "originalCommit")) "oid" JNull)
    as [oid|]; [|discriminate]. cbn [mbind result_bind].
  destruct (py_get (default (JObj ∅) (m !! "originalCommit")) "message" JNull)
    as [msg|]; [|discriminate]. cbn [mbind result_bind].
  intros H. inversion H; subst. simpl. exists a. repeat split; assumption || reflexivity.
Qed.

(** A record whose original commit is null yields no Comment. *)
Lemma Comment_of_null_commit (m : gmap string json) :
  m !! "originalCommit" = Some JNull -> raises (Comment_of (JObj m)).
Proof.
  intros Hnull. destruct (Comment_of (JObj m)) as [cm|e] eqn:Hcm; [|now exists e].
  apply Comment_of_Ok_fields in Hcm as (a & _ & _ & _ & _ & _ & Hoid & _).
  rewrite Hnull in Hoid. discriminate.
Qed.




(** C2, as the code has it.  For a record that yields a Comment: when the
    "originalCommit" key is absent both commit fields are None; when it holds
    an object, commit_id is the object's "oid" and commit_message its
    "message", each None when the object lacks that key.  So the two fields
    are both present or both absent whenever the key is absent or the object
    carries both an oid and a message, or neither. *)
Theorem commit_fields_from_object (comment : json) (cm : Comment) :
  Comment_of comment = Ok cm ->
  exists m, comment = JObj m /\
    (m !! "originalCommit" = None ->
       commit_id cm = JNull /\ commit_message cm = JNull) /\
    (forall d, m !! "originalCommit" = Some (JObj d) ->
       commit_id cm = default JNull (d !! "oid") /\
       commit_message cm = default JNull (d !! "message")) /\
    (m !! "originalCommit" = None \/
     (exists d, m !! "originalCommit" = Some (JObj d) /\
                (default JNull (d !! "oid") = JNull <->
                 default JNull (d !! "message") = JNull)) ->
     commit_fields_paired cm).
Proof.
  intros Hcm. destruct (Comment_of_Ok_obj _ _ Hcm) as [m ->].
  apply Comment_of_Ok_fields in Hcm as (a & _ & _ & _ & _ & _ & Hoid & Hmsg).
  assert (m !! "originalCommit" = None ->
          commit_id cm = JNull /\ commit_message cm = JNull) as Habsent.
  { intros Hnone. rewrite Hnone in Hoid, Hmsg. simpl in Hoid, Hmsg.
    rewrite lookup_empty in Hoid, Hmsg. simpl in Hoid, Hmsg.
    split; congruence. }
  assert (forall d, m !! "originalCommit" = Some (JObj d) ->
          commit_id cm = default JNull (d !! "oid") /\
          commit_message cm = default JNull (d !! "message")) as Hobject.
  { intros d Hd. rewrite Hd in Hoid, Hmsg. simpl in Hoid, Hmsg.
    split; congruence. }
  exists m. split; [reflexivity|]. split; [exact Habsent|]. split; [exact Hobject|].
  unfold commit_fields_paired. intros [Hnone | (d & Hd & Hiff)].
  - destruct (Habsent Hnone) as [-> ->]. tauto.
  - destruct (Hobject d Hd) as [-> ->]. exact Hiff.
Qed.

Lemma commit_fields_from_object_witness :
  Comment_of (bob_record b_body b_date b_url) = Ok (bob b_body b_date b_url) /\
  commit_id (bob b_body b_date b_url) = JStr "abc1234567" /\
  commit_fields_paired (bob b_body b_date b_url).
Proof.
  split; [reflexivity|].
  destruct (commit_fields_from_object (bob_record b_body b_date b_url)
                                      (bob b_body b_date b_url) eq_refl)
    as (m & Hm & _ & Hobject & Hpaired).
  inversion Hm; subst m.
  set (d := list_to_map
              [("oid", JStr "abc1234567");
               ("message", JStr ("fix bug" ++ String LF "more detail")%string)]
            : gmap string json).
  split.
  - apply (Hobject d). reflexivity.
  - apply Hpaired. right. exists d. split; [reflexivity|].
    vm_compute. split; discriminate.
Defined.

(** C2 as stated fails: a record whose original commit has an oid and no
    message yields a Comment with commit_id set and commit_message None. *)
Lemma commit_pairing_counterexample :
  exists cm, Comment_of oid_only_record = Ok cm /\ ~ commit_fields_paired cm.
Proof.
  exists (mkComment (JStr "unknown") a_body a_date a_url (JStr "abc1234567") JNull).
  split; [reflexivity|]. unfold commit_fields_paired. simpl.
  intros [_ H]. specialize (H eq_refl). discriminate.
Qed.

(** C9, as the code has it.  When a thread of the page that is not skipped
    (the filter is not 'unresolved', or the thread's isResolved is not true)
    has a comment record whose "originalCommit" key is present with a null
    value, the flattener raises an exception and returns no sequence. *)
Theorem null_original_commit_raises
    (pr_data : json) (filter_type : string) (threads : list json) (thread : json)
    (records : list json) (m : gmap string json) :
  page_threads pr_data = Ok threads ->
  thread ∈ threads ->
  thread_skipped filter_type thread <> Ok true ->
  thread_records thread = Ok records ->
  JObj m ∈ records ->
  m !! "originalCommit" = Some JNull ->
  raises (_parse_response pr_data filter_type).
Proof.
  intros Hth Hin Hskip Hrec Hinr Hnull.
  rewrite parse_response_concat. unfold included_comments. rewrite Hth. simpl.
  assert (raises (traverse (included_of_thread filter_type) threads)) as [e ->].
  { apply (traverse_raises _ _ thread Hin).
    unfold included_of_thread.
    destruct (thread_skipped filter_type thread) as [[|]|e]; simpl.
    - contradiction.
    - unfold thread_comments. rewrite Hrec. simpl.
      apply (traverse_raises _ _ (JObj m) Hinr).
      now apply Comment_of_null_commit.
    - now exists e. }
  now exists e.
Qed.

Lemma null_original_commit_raises_witness :
  raises (_parse_response
            (page_of [thread_of false [null_commit_record]] (JBool false) JNull)
            "unresolved").
Proof.
  apply (null_original_commit_raises _ _
           [thread_of false [null_commit_record]]
           (thread_of false [null_commit_record])
           [null_commit_record]
           (list_to_map [("author", JNull); ("body", a_body); ("createdAt", a_date);
                         ("url", a_url); ("originalCommit", JNull)])).
  - reflexivity.
  - apply list_elem_of_here.
  - vm_compute. discriminate.
  - reflexivity.
  - apply list_elem_of_here.
  - reflexivity.
Defined.

(** C9 as stated fails: under 'unresolved' a resolved thread is skipped with
    its records unread, so a null original commit inside it raises nothing. *)
Lemma null_original_commit_counterexample :
  _parse_response
    (page_of [thread_of true [null_commit_record]] (JBool false) JNull)
    "unresolved" = Ok [] /\
  ~ raises (_parse_response
              (page_of [thread_of true [null_commit_record]] (JBool false) JNull)
              "unresolved").
Proof.
  split; [reflexivity|]. intros [e He]. vm_compute in He. discriminate.
Qed.

(** ** The end-to-end example *)

(** C8.  On the one-page example (thread A resolved with alice's comment,
    thread B unresolved with bob's comment on commit abc1234567, message
    "fix bug\nmore detail"), the flattener under 'unresolved' returns exactly
    bob's Comment; its short commit id is "abc1234" and the commit line the
    presenter shows is "fix bug". *)
Theorem end_to_end_example (py_str : json -> string) (ab ad au bb bd bu : json) :
  _parse_response (example_page ab ad au bb bd bu) "unresolved" = Ok [bob bb bd bu] /\
  short_commit_id (bob bb bd bu) = Ok (JStr "abc1234") /\
  commit_msg (bob bb bd bu) = Ok "fix bug" /\
  commit_info py_str (bob bb bd bu) = Ok ("abc1234" ++ String LF "fix bug")%string.
Proof. split; [|split; [|split]]; reflexivity. Qed.

(** ** The pagination loop *)

(** The first lines of a pass of [while_true] are a call of
    [execute_query]. *)
Lemma while_true_execute_query (owner repo : string) (pr_number : Z)
    (filter_type : string) (t : Transport) (acc : list Comment) (cursor : json) :
  while_true owner repo pr_number filter_type (pending t) (sent t) acc cursor =
  let '(response, t') :=
    execute_query (mkVariables owner repo pr_number cursor) t in
  match data ← response; loop_body filter_type data acc with
  | Raise e => (Raise e, t')
  | Ok (acc', cursor') =>
      if py_truthy cursor'
      then while_true owner repo pr_number filter_type (pending t') (sent t') acc' cursor'
      else (Ok acc', t')
  end.
Proof. destruct t as [[|response rest] s]; reflexivity. Qed.

Lemma loop_body_eq (filter_type : string) (data : json) (acc : list Comment) :
  loop_body filter_type data acc =
  cs ← flatten_page filter_type data; c ← next_cursor data; Ok (acc ++ cs, c).
Proof.
  unfold loop_body, flatten_page, next_cursor, page_info, pull_request.
  destruct (py_getitem data "data") as [d|e]; simpl; [|reflexivity].
  destruct (py_getitem d "repository") as [r|e]; simpl; [|reflexivity].
  destruct (py_getitem r "pullRequest") as [pr|e]; simpl; [|reflexivity].
  destruct (_parse_response pr filter_type) as [cs|e]; simpl; [|reflexivity].
  destruct (py_getitem pr "reviewThreads") as [rt|e]; simpl; [|reflexivity].
  destruct (py_getitem rt "pageInfo") as [info|e]; simpl; [|reflexivity].
  destruct (py_getitem info "hasNextPage") as [h|e]; simpl; [|reflexivity].
  now destruct (if py_truthy h then py_getitem info "endCursor" else Ok JNull).
Qed.

Lemma next_cursor_eq (data : json) :
  next_cursor data =
  h ← has_next_page data; if h : bool then end_cursor data else Ok JNull.
Proof.
  unfold next_cursor, has_next_page, end_cursor.
  destruct (page_info data) as [info|e]; simpl; [|reflexivity].
  destruct (py_getitem info "hasNextPage") as [h|e]; reflexivity.
Qed.

Lemma page_continues_body (filter_type : string) (data c : json) (acc : list Comment) :
  page_continues filter_type data c ->
  exists cs, flatten_page filter_type data = Ok cs /\
             loop_body filter_type data acc = Ok (acc ++ cs, c) /\ py_truthy c = true.
Proof.
  intros ([cs Hcs] & Hnext & Hend & Htrue). exists cs.
  rewrite loop_body_eq, next_cursor_eq, Hcs, Hnext. simpl. now rewrite Hend.
Qed.



(** What a run that returns has consumed and built. *)
Lemma while_true_inv (owner repo : string) (pr_number : Z) (filter_type : string)
    (pend : list (result json)) :
  forall (sent0 : list Variables) (acc : list Comment) (c0 : json)
         (cs : list Comment) (t' : Transport),
    while_true owner repo pr_number filter_type pend sent0 acc c0 = (Ok cs, t') ->
    exists fetched css,
      pend = (Ok <$> fetched) ++ pending t' /\
      traverse (flatten_page filter_type) fetched = Ok css /\
      cs = acc ++ List.concat css /\
      List.length (sent t') = (List.length sent0 + List.length fetched)%nat.
Proof.
  induction pend as [|response rest IH]; intros sent0 acc c0 cs t' Hrun.
  - discriminate.
  - cbn [while_true] in Hrun.
    destruct response as [data|e]; cbn [mbind result_bind] in Hrun; [|discriminate].
    rewrite loop_body_eq in Hrun.
    destruct (flatten_page filter_type data) as [cs0|e] eqn:Hcs0;
      cbn [mbind result_bind] in Hrun; [|discriminate].
    destruct (next_cursor data) as [c|e]; cbn [mbind result_bind] in Hrun; [|discriminate].
    destruct (py_truthy c).
    + apply IH in Hrun as (fetched & css & -> & Hcss & -> & Hlen).
      exists (data :: fetched), (cs0 :: css). repeat split.
      * cbn [traverse]. rewrite Hcs0. simpl. now rewrite Hcss.
      * simpl. now rewrite app_assoc.
      * rewrite Hlen, length_app. simpl. lia.
    + inversion Hrun; subst. exists [data], [cs0]. repeat split.
      * cbn [traverse]. now rewrite Hcs0.
      * simpl. now rewrite app_nil_r.
      * simpl. rewrite length_app. simpl. lia.
Qed.






(** ** The top-level comments collection *)

Lemma elem_of_concat {A} (x : A) (ls : list (list A)) :
  x ∈ List.concat ls -> exists l, l ∈ ls /\ x ∈ l.
Proof.
  induction ls as [|l ls IH]; simpl; intros Hin.
  - now apply elem_of_nil in Hin.
  - apply elem_of_app in Hin as [Hin|Hin].
    + exists l. split; [apply list_elem_of_here|assumption].
    + destruct (IH Hin) as (l' & Hl' & Hx). exists l'.
      split; [now apply list_elem_of_further|assumption].
Qed.

Lemma traverse_elem_of {A B} (f : A -> result B) (xs : list A) (ys : list B) (y : B) :
  traverse f xs = Ok ys -> y ∈ ys -> exists x, x ∈ xs /\ f x = Ok y.
Proof.
  intros Htr. apply traverse_Ok in Htr.
  induction Htr as [|x y0 xs ys Hxy _ IH]; intros Hin.
  - now apply elem_of_nil in Hin.
  - apply elem_of_cons in Hin as [->|Hin].
    + exists x. split; [apply list_elem_of_here|assumption].
    + destruct (IH Hin) as (x' & Hx' & Hf). exists x'.
      split; [now apply list_elem_of_further|assumption].
Qed.

(** Every comment a page contributes is built from a record of one of its
    threads. *)
Lemma flatten_page_provenance (filter_type : string) (data : json)
    (cs : list Comment) (cm : Comment) :
  flatten_page filter_type data = Ok cs -> cm ∈ cs -> from_review_thread data cm.
Proof.
  rewrite flatten_page_concat. unfold page_included_comments, included_comments.
  intros Hcs Hin.
  apply bind_Ok in Hcs as (pr & Hpr & Hcs).
  apply bind_Ok in Hcs as (threads & Hth & Hcs).
  apply bind_Ok in Hcs as (css & Hcss & Hcs). inversion Hcs; subst cs.
  apply elem_of_concat in Hin as (cs1 & Hcs1 & Hin).
  destruct (traverse_elem_of _ _ _ _ Hcss Hcs1) as (thread & Hthread & Hinc).
  unfold included_of_thread in Hinc.
  apply bind_Ok in Hinc as (skip & _ & Hinc). destruct skip.
  - inversion Hinc; subst cs1. now apply elem_of_nil in Hin.
  - unfold thread_comments in Hinc.
    apply bind_Ok in Hinc as (records & Hrec & Hinc).
    destruct (traverse_elem_of _ _ _ _ Hinc Hin) as (record & Hrecord & Hcm).
    now exists pr, threads, thread, records, record.
Qed.

(** Replacing the top-level collection changes nothing the loop reads. *)
Lemma loop_body_top_comments (filter_type : string) (v data : json)
    (acc : list Comment) :
  loop_body filter_type (with_top_comments v data) acc = loop_body filter_type data acc.
Proof.
  unfold with_top_comments.
  destruct data as [| | | | |m0]; try reflexivity.
  destruct (m0 !! "data") as [[| | | | |m1]|] eqn:H0; try reflexivity.
  destruct (m1 !! "repository") as [[| | | | |m2]|] eqn:H1; try reflexivity.
  destruct (m2 !! "pullRequest") as [[| | | | |m3]|] eqn:H2; try reflexivity.
  unfold loop_body, _parse_response. cbn [py_getitem].
  rewrite !lookup_insert_eq, H0. cbn [mbind result_bind py_getitem].
  rewrite !lookup_insert_eq, H1. cbn [mbind result_bind py_getitem].
  rewrite !lookup_insert_eq, H2. cbn [mbind result_bind py_getitem].
  rewrite !lookup_insert_ne by discriminate. reflexivity.
Qed.

Lemma while_true_top_comments (owner repo : string) (pr_number : Z)
    (filter_type : string) (pend pend' : list (result json)) :
  Forall2 same_but_top_comments pend pend' ->
  forall (sent0 : list Variables) (acc : list Comment) (c0 : json),
    (while_true owner repo pr_number filter_type pend' sent0 acc c0).1 =
    (while_true owner repo pr_number filter_type pend sent0 acc c0).1 /\
    sent (while_true owner repo pr_number filter_type pend' sent0 acc c0).2 =
    sent (while_true owner repo pr_number filter_type pend sent0 acc c0).2.
Proof.
  induction 1 as [|response response' pend pend' Hsame _ IH]; intros sent0 acc c0.
  - split; reflexivity.
  - cbn [while_true].
    destruct response as [data|e], response' as [data'|e']; simpl in Hsame;
      try contradiction.
    + destruct Hsame as [v ->]. cbn [mbind result_bind].
      rewrite loop_body_top_comments.
      destruct (loop_body filter_type data acc) as [[acc' c']|e]; [|split; reflexivity].
      destruct (py_truthy c'); [apply IH|split; reflexivity].
    + subst e'. split; reflexivity.
Qed.

(** C6.  Only review-thread comments are returned.  Every comment that
    get_pr_comments returns is built from a record of a review thread of one
    of the responses; and replacing, in any of the responses, the top-level
    comments collection of the pull request by anything else changes neither
    the result nor the requests sent, whatever the filter. *)
Theorem top_level_comments_unused
    (owner repo : string) (pr_number : Z) (filter_type : string)
    (t : Transport) (pend' : list (result json)) :
  Forall2 same_but_top_comments (pending t) pend' ->
  (get_pr_comments owner repo pr_number filter_type (mkTransport pend' (sent t))).1 =
  (get_pr_comments owner repo pr_number filter_type t).1 /\
  sent (get_pr_comments owner repo pr_number filter_type (mkTransport pend' (sent t))).2 =
  sent (get_pr_comments owner repo pr_number filter_type t).2 /\
  (forall cs, (get_pr_comments owner repo pr_number filter_type t).1 = Ok cs ->
     forall cm, cm ∈ cs ->
       exists data, Ok data ∈ pending t /\ from_review_thread data cm).
Proof.
  intros Hsame. unfold get_pr_comments. cbn [pending sent].
  destruct (while_true_top_comments owner repo pr_number filter_type _ _ Hsame
              (sent t) [] JNull) as [Hres Hsent].
  split; [exact Hres|]. split; [exact Hsent|].
  intros cs Hcs cm Hin.
  destruct (while_true owner repo pr_number filter_type (pending t) (sent t) [] JNull)
    as [r t'] eqn:Hrun.
  simpl in Hcs. subst r.
  apply while_true_inv in Hrun as (fetched & css & Hpend & Hcss & Hcat & _).
  simpl in Hcat. subst cs.
  apply elem_of_concat in Hin as (cs1 & Hcs1 & Hin).
  destruct (traverse_elem_of _ _ _ _ Hcss Hcs1) as (data & Hdata & Hflat).
  exists data. split.
  - rewrite Hpend. apply elem_of_app. left. now apply list_elem_of_fmap_2.
  - now apply (flatten_page_provenance filter_type data cs1).
Qed.

Lemma top_level_comments_unused_witness :
  (get_pr_comments "o" "r" 7 "all"
     (mkTransport [Ok response_AB_with_top_comments] [])).1 =
  (get_pr_comments "o" "r" 7 "all" (mkTransport [Ok (response_of page_AB)] [])).1 /\
  sent (get_pr_comments "o" "r" 7 "all"
          (mkTransport [Ok response_AB_with_top_comments] [])).2 =
  sent (get_pr_comments "o" "r" 7 "all" (mkTransport [Ok (response_of page_AB)] [])).2 /\
  (forall cs,
     (get_pr_comments "o" "r" 7 "all" (mkTransport [Ok (response_of page_AB)] [])).1
     = Ok cs ->
     forall cm, cm ∈ cs ->
       exists data, Ok data ∈ [Ok (response_of page_AB)] /\ from_review_thread data cm).
Proof.
  apply (top_level_comments_unused "o" "r" 7 "all"
           (mkTransport [Ok (response_of page_AB)] [])
           [Ok response_AB_with_top_comments]).
  constructor; [|constructor]. exists top_comments. reflexivity.
Defined.

(** ** The missing token *)

(** C7.  With GH_TOKEN unset, or set to the empty string, main raises
    ValueError and leaves the transport as it found it: no request is sent. *)
Theorem missing_token_no_request
    (py_str : json -> string) (fromisoformat_strftime : string -> result string)
    (rich_Text : json -> result unit)
    (add_row : string * json * string * json * json -> result unit)
    (console_print : printed -> result unit)
    (args : Namespace) (t : Transport) :
  main py_str fromisoformat_strftime rich_Text add_row console_print args None t
    = (Uncaught (ValueError token_not_set), t) /\
  main py_str fromisoformat_strftime rich_Text add_row console_print args
       (Some EmptyString) t
    = (Uncaught (ValueError token_not_set), t) /\
  sent (main py_str fromisoformat_strftime rich_Text add_row console_print
             args None t).2 = sent t /\
  sent (main py_str fromisoformat_strftime rich_Text add_row console_print
             args (Some EmptyString) t).2 = sent t.
Proof. split; [|split; [|split]]; reflexivity. Qed.

(** With a token, main does go to the network: on the example page, with
    a rich that accepts everything, it sends one request and prints the
    one-row table and the total line. *)
Example main_with_token_sends :
  main (fun _ => "None") (fun s => Ok s) (fun _ => Ok tt) (fun _ => Ok tt)
       (fun _ => Ok tt) (mkNamespace "o" "r" 7 "unresolved")
       (Some "ghp_token") (mkTransport [Ok (response_of page_AB)] []) =
  (Returned
     [TableOut [("2024-01-02T11:30:00+00:00", JStr "bob",
                 ("abc1234" ++ String LF "fix bug")%string, b_body, b_url)];
      LineOut (String LF "[bold green]Total unresolved comments:[/] 1")],
   mkTransport [] [mkVariables "o" "r" 7 JNull]).
Proof. reflexivity. Qed.

(** * Further properties of the code *)

(** ** Strings: slices, split and replace *)

Lemma substring_0_prefix (n : nat) (s : string) :
  exists rest, s = (String.substring 0 n s ++ rest)%string /\
               String.length (String.substring 0 n s) = Nat.min n (String.length s).
Proof.
  revert s. induction n as [|n IH]; intros [|c s]; simpl.
  - now exists EmptyString.
  - now exists (String c s).
  - now exists EmptyString.
  - destruct (IH s) as (rest & Hs & Hlen). exists rest.
    split; [|now rewrite Hlen].
    change (String c s = String c (String.substring 0 n s ++ rest)%string).
    now rewrite <- Hs.
Qed.

Lemma py_split_cons (sep : ascii) (s : string) :
  exists p ps, py_split sep s = p :: ps.
Proof.
  destruct s as [|c s]; simpl; [now eexists _, _|].
  destruct (Ascii.eqb c sep); [now eexists _, _|].
  destruct (py_split sep s); now eexists _, _.
Qed.

Lemma contains_app (c : ascii) (s1 s2 : string) :
  contains c (s1 ++ s2)%string = contains c s1 || contains c s2.
Proof.
  induction s1 as [|c1 s1 IH]; simpl; [reflexivity|].
  now destruct (Ascii.eqb c1 c).
Qed.

(** X1.  The short commit id of a Comment whose commit_id is a string is the
    prefix of at most seven characters of it, and None for the empty string
    and for a None commit_id; the property raises for neither. *)
Theorem short_commit_id_prefix (self : Comment) :
  (commit_id self = JNull -> short_commit_id self = Ok JNull) /\
  (forall s, commit_id self = JStr s ->
     (s = EmptyString -> short_commit_id self = Ok JNull) /\
     (s <> EmptyString ->
        exists p rest, short_commit_id self = Ok (JStr p) /\
                       s = (p ++ rest)%string /\
                       String.length p = Nat.min 7 (String.length s))).
Proof.
  unfold short_commit_id. split.
  - now intros ->.
  - intros s ->. split.
    + now intros ->.
    + intros Hne. destruct s as [|c s]; [contradiction|]. cbn [py_truthy String.length].
      cbn [Nat.eqb negb py_slice7].
      destruct (substring_0_prefix 7 (String c s)) as (rest & Hs & Hlen).
      exists (String.substring 0 7 (String c s)), rest. auto.
Qed.

Lemma short_commit_id_prefix_witness :
  exists p rest, short_commit_id (bob b_body b_date b_url) = Ok (JStr p) /\
                 "abc1234567" = (p ++ rest)%string /\
                 String.length p = Nat.min 7 (String.length "abc1234567").
Proof.
  destruct (short_commit_id_prefix (bob b_body b_date b_url)) as [_ Hstr].
  destruct (Hstr "abc1234567" eq_refl) as [_ Hprefix].
  apply Hprefix. discriminate.
Defined.

Lemma py_split_parts (sep : ascii) (s : string) :
  py_split sep s <> [] /\
  Forall (fun p => contains sep p = false) (py_split sep s) /\
  py_join sep (py_split sep s) = s.
Proof.
  split; [|split].
  - destruct (py_split_cons sep s) as (p & ps & ->). discriminate.
  - induction s as [|c s IH]; simpl.
    + constructor; [reflexivity|constructor].
    + destruct (Ascii.eqb c sep) eqn:Hc.
      * constructor; [reflexivity|exact IH].
      * destruct (py_split sep s) as [|p ps].
        -- constructor; [|constructor]. simpl. now rewrite Hc.
        -- inversion IH; subst. constructor; [|assumption]. simpl. now rewrite Hc.
  - induction s as [|c s IH]; simpl; [reflexivity|].
    destruct (py_split_cons sep s) as (p & ps & Hsplit). rewrite Hsplit in *.
    destruct (Ascii.eqb_spec c sep) as [->|_].
    + cbn [py_join]. cbn [py_join] in IH. now rewrite IH.
    + cbn [py_join]. cbn [py_join] in IH. destruct ps; simpl; now rewrite <- IH.
Qed.

(** X2.  Splitting a string at a separator loses nothing: there is always
    a first part, no part contains the separator, and joining the parts with
    the separator gives the string back. *)
Theorem split_join_round_trip (sep : ascii) (s : string) :
  py_split sep s <> [] /\
  Forall (fun p => contains sep p = false) (py_split sep s) /\
  py_join sep (py_split sep s) = s.
Proof. apply py_split_parts. Qed.

(** X3.  The commit line of a Comment whose commit message is a non-empty
    string is the first line of the message: it holds no newline, and the
    message is that line, alone or followed by a newline and the rest. *)
Theorem commit_msg_first_line (comment : Comment) (s : string) :
  commit_message comment = JStr s -> s <> EmptyString ->
  exists line, commit_msg comment = Ok line /\
               contains LF line = false /\
               (s = line \/ exists rest, s = (line ++ String LF rest)%string).
Proof.
  intros Hmsg Hne. unfold commit_msg. rewrite Hmsg.
  destruct s as [|c s]; [contradiction|]. cbn [py_truthy String.length Nat.eqb negb].
  destruct (py_split_parts LF (String c s)) as (_ & Hparts & Hjoin).
  destruct (py_split_cons LF (String c s)) as (line & ps & Hsplit).
  rewrite Hsplit in *. exists line. split; [reflexivity|]. split.
  - now inversion Hparts.
  - cbn [py_join] in Hjoin. destruct ps as [|p ps].
    + now left.
    + right. eexists. symmetry. exact Hjoin.
Qed.

Lemma commit_msg_first_line_witness :
  exists line, commit_msg (bob b_body b_date b_url) = Ok line /\
               contains LF line = false /\
               (("fix bug" ++ String LF "more detail")%string = line \/
                exists rest, ("fix bug" ++ String LF "more detail")%string
                             = (line ++ String LF rest)%string).
Proof.
  apply (commit_msg_first_line (bob b_body b_date b_url)
           ("fix bug" ++ String LF "more detail")%string).
  - reflexivity.
  - discriminate.
Defined.

Lemma commit_info_NA_iff_falsy (py_str : json -> string) (comment : Comment) :
  commit_info py_str comment = Ok "N/A" <-> py_truthy (commit_id comment) = false.
Proof.
  unfold commit_info. split.
  - destruct (py_truthy (commit_id comment)); [|reflexivity].
    intros H. apply bind_Ok in H as (msg & _ & H).
    apply bind_Ok in H as (short & _ & H). inversion H as [Heq].
    assert (contains LF "N/A" = true) as Hcontra.
    { rewrite <- Heq, contains_app. simpl. apply orb_true_r. }
    discriminate.
  - now intros ->.
Qed.

(** X4.  The commit cell is "N/A" exactly when the Comment's commit_id is
    None or empty, whatever its commit message; every other cell is the
    short commit id, a newline and the commit line, in that order: for a
    string commit_id, its first seven characters, a newline, the line. *)
Theorem commit_info_NA (py_str : json -> string) (comment : Comment) :
  (commit_info py_str comment = Ok "N/A" <-> py_truthy (commit_id comment) = false) /\
  (forall info, commit_info py_str comment = Ok info ->
                py_truthy (commit_id comment) = true ->
     contains LF info = true /\
     exists short msg,
       short_commit_id comment = Ok short /\
       commit_msg comment = Ok msg /\
       info = (format_value py_str short ++ String LF msg)%string /\
       (forall s, commit_id comment = JStr s ->
          info = (String.substring 0 7 s ++ String LF msg)%string)).
Proof.
  split; [apply commit_info_NA_iff_falsy|].
  unfold commit_info. intros info H Htrue. rewrite Htrue in H.
  apply bind_Ok in H as (msg & Hmsg & H).
  apply bind_Ok in H as (short & Hshort & H). inversion H as [Hinfo].
  split; [rewrite contains_app; simpl; apply orb_true_r|].
  exists short, msg. repeat split; try assumption.
  intros s Hs. unfold short_commit_id in Hshort. rewrite Htrue, Hs in Hshort.
  simpl in Hshort. now inversion Hshort.
Qed.

Lemma commit_info_NA_witness :
  commit_info (fun _ => "None") (alice a_body a_date a_url) = Ok "N/A" /\
  exists short msg,
    short_commit_id (bob b_body b_date b_url) = Ok short /\
    commit_msg (bob b_body b_date b_url) = Ok msg /\
    ("abc1234" ++ String LF "fix bug")%string
      = (format_value (fun _ => "None") short ++ String LF msg)%string /\
    (forall s, commit_id (bob b_body b_date b_url) = JStr s ->
       ("abc1234" ++ String LF "fix bug")%string
         = (String.substring 0 7 s ++ String LF msg)%string).
Proof.
  destruct (commit_info_NA (fun _ => "None") (alice a_body a_date a_url)) as [[_ Hna] _].
  destruct (commit_info_NA (fun _ => "None") (bob b_body b_date b_url)) as [_ Hcell].
  split.
  - apply Hna. reflexivity.
  - destruct (Hcell ("abc1234" ++ String LF "fix bug")%string eq_refl eq_refl)
      as [_ Hshape]. exact Hshape.
Defined.

(** X5.  The string that formatted_date hands to the ISO parser holds no
    'Z': every 'Z' of created_at is replaced by "+00:00" (a string without
    'Z' is passed as it is, and one ending in its only 'Z' gets the offset
    in its place); a created_at that is not a string raises AttributeError. *)
Theorem formatted_date_replaces_Z
    (fromisoformat_strftime : string -> result string) (self : Comment) :
  (forall s, created_at self = JStr s ->
     formatted_date fromisoformat_strftime self = fromisoformat_strftime (replace_Z s) /\
     contains "Z" (replace_Z s) = false /\
     (contains "Z" s = false ->
        replace_Z s = s /\ replace_Z (s ++ "Z") = (s ++ "+00:00")%string)) /\
  ((forall s, created_at self <> JStr s) ->
     formatted_date fromisoformat_strftime self = Raise AttributeError).
Proof.
  unfold formatted_date. split.
  - intros s ->. split; [reflexivity|]. split.
    + induction s as [|c s IH]; simpl; [reflexivity|].
      destruct (Ascii.eqb c "Z") eqn:Hc; simpl; [exact IH|]. now rewrite Hc.
    + induction s as [|c s IH]; simpl; [now split|].
      destruct (Ascii.eqb c "Z"); [discriminate|].
      intros Hs. destruct (IH Hs) as [-> ->]. now split.
  - intros Hne. destruct (created_at self) as [| | |s| |]; try reflexivity.
    now destruct (Hne s).
Qed.

Lemma formatted_date_replaces_Z_witness :
  formatted_date (fun s => Ok s) (bob b_body b_date b_url)
    = Ok "2024-01-02T11:30:00+00:00" /\
  formatted_date (fun s => Ok s) (mkComment JNull JNull JNull JNull JNull JNull)
    = Raise AttributeError.
Proof.
  split.
  - destruct (formatted_date_replaces_Z (fun s => Ok s) (bob b_body b_date b_url))
      as [Hstr _].
    destruct (Hstr "2024-01-02T11:30:00Z" eq_refl) as (-> & _ & _). reflexivity.
  - destruct (formatted_date_replaces_Z (fun s => Ok s)
                (mkComment JNull JNull JNull JNull JNull JNull)) as [_ Hother].
    apply Hother. discriminate.
Defined.

(** ** The presenter *)

Lemma display_rows (py_str : json -> string)
    (fromisoformat_strftime : string -> result string)
    (rich_Text : json -> result unit)
    (add_row : string * json * string * json * json -> result unit)
    (rows0 : list (string * json * string * json * json)) (comments : list Comment) :
  for_each (add_comment_row py_str fromisoformat_strftime rich_Text add_row)
           rows0 comments =
  rows ← traverse (row_of py_str fromisoformat_strftime rich_Text add_row) comments;
  Ok (rows0 ++ rows).
Proof.
  rewrite <- for_each_append. apply for_each_ext. intros rows comment.
  unfold add_comment_row, row_of.
  destruct (commit_info py_str comment); simpl; [|reflexivity].
  destruct (formatted_date fromisoformat_strftime comment); simpl; [|reflexivity].
  destruct (rich_Text (body comment)); simpl; [|reflexivity].
  now destruct (add_row _).
Qed.

(** X6.  When display_comments returns, it has printed either the notice
    alone, and then there was no comment, or one table followed by one
    total line, and then the table has one row per comment, in the order
    of the comments, each row carrying the author, body and URL of its
    comment as they are. *)
Theorem display_one_row_per_comment (py_str : json -> string)
    (fromisoformat_strftime : string -> result string)
    (rich_Text : json -> result unit)
    (add_row : string * json * string * json * json -> result unit)
    (console_print : printed -> result unit)
    (comments : list Comment) (console0 console : list printed) :
  display_comments py_str fromisoformat_strftime rich_Text add_row console_print
                   comments console0 = (console, Ok tt) ->
  (comments = [] /\ console = console0 ++ [PanelOut "No unresolved comments found"]) \/
  (comments <> [] /\
   exists rows line,
     console = console0 ++ [TableOut rows; LineOut line] /\
     List.length rows = List.length comments /\
     Forall2 (fun comment row =>
                exists date info,
                  formatted_date fromisoformat_strftime comment = Ok date /\
                  commit_info py_str comment = Ok info /\
                  row = (date, author comment, info, body comment, url comment))
             comments rows).
Proof.
  intros Hshow. destruct comments as [|c0 comments].
  - left. cbn [display_comments] in Hshow. unfold print in Hshow.
    destruct (console_print _); inversion Hshow. auto.
  - right. split; [discriminate|].
    unfold display_comments in Hshow. rewrite display_rows in Hshow.
    destruct (traverse (row_of py_str fromisoformat_strftime rich_Text add_row)
                       (c0 :: comments)) as [rows|e] eqn:Hrows;
      cbn [mbind result_bind] in Hshow; [|discriminate].
    unfold print in Hshow.
    destruct (console_print (TableOut ([] ++ rows))); [|discriminate].
    destruct (console_print (LineOut _)); inversion Hshow; subst console.
    apply traverse_Ok in Hrows. cbn [app].
    eexists _, _. split; [now rewrite <- app_assoc|]. split.
    + symmetry. exact (Forall2_length _ _ _ Hrows).
    + eapply Forall2_impl; [exact Hrows|]. intros comment row Hrow.
      unfold row_of in Hrow.
      apply bind_Ok in Hrow as (info & Hinfo & Hrow).
      apply bind_Ok in Hrow as (date & Hdate & Hrow).
      apply bind_Ok in Hrow as (? & _ & Hrow).
      apply bind_Ok in Hrow as (? & _ & Hrow). inversion Hrow.
      now exists date, info.
Qed.

Lemma display_one_row_per_comment_witness :
  exists rows line,
    [] ++ [TableOut [("2024-01-01T10:00:00+00:00", JStr "alice", "N/A", a_body, a_url);
                     ("2024-01-02T11:30:00+00:00", JStr "bob",
                      ("abc1234" ++ String LF "fix bug")%string, b_body, b_url)];
           LineOut (String LF "[bold green]Total total comments:[/] 2")]
    = [] ++ [TableOut rows; LineOut line] /\
    List.length rows = 2%nat.
Proof.
  destruct (display_one_row_per_comment (fun _ => "None") (fun s => Ok s)
              (fun _ => Ok tt) (fun _ => Ok tt) (fun _ => Ok tt)
              [alice a_body a_date a_url; bob b_body b_date b_url] [] _ eq_refl)
    as [[Hnil _] | (_ & rows & line & Hconsole & Hlen & _)].
  - discriminate.
  - now exists rows, line.
Defined.

(** X7.  A Comment built from a record that has no "originalCommit" key is
    shown with the commit cell "N/A". *)
Theorem no_commit_shows_NA (py_str : json -> string)
    (m : gmap string json) (cm : Comment) :
  Comment_of (JObj m) = Ok cm -> m !! "originalCommit" = None ->
  commit_info py_str cm = Ok "N/A".
Proof.
  intros Hcm Hnone.
  apply Comment_of_Ok_fields in Hcm as (a & _ & _ & _ & _ & _ & Hoid & _).
  rewrite Hnone in Hoid. simpl in Hoid. rewrite lookup_empty in Hoid.
  simpl in Hoid. inversion Hoid as [Hid].
  apply commit_info_NA_iff_falsy. now rewrite <- Hid.
Qed.

Lemma no_commit_shows_NA_witness :
  commit_info (fun _ => "None")
              (mkComment (JStr "unknown") a_body a_date a_url JNull JNull) = Ok "N/A".
Proof.
  apply (no_commit_shows_NA (fun _ => "None")
           (list_to_map [("author", JNull); ("body", a_body);
                         ("createdAt", a_date); ("url", a_url)])).
  - reflexivity.
  - reflexivity.
Defined.

(** ** main with a token *)



(** ** Failures and requests of the pagination loop *)

Lemma response_fails_body (filter_type : string) (response : result json) (e : exn)
    (acc : list Comment) :
  response_fails filter_type response e ->
  (data ← response; loop_body filter_type data acc) = Raise e.
Proof.
  intros [-> | (data & -> & Hfail)]; [reflexivity|].
  cbn [mbind result_bind]. rewrite loop_body_eq.
  destruct Hfail as [-> | [[cs ->] ->]]; reflexivity.
Qed.

(** X9.  No retry and no partial result: when the pages before continue and
    the next response fails with an exception (raised by the transport, or
    by a malformed page), get_pr_comments raises that exception, having sent
    one request per response up to the failing one and none after it; the
    comments gathered so far are not returned. *)
Theorem fetch_aborts_on_failure
    (owner repo : string) (pr_number : Z) (filter_type : string)
    (pages cursors : list json) (response : result json) (e : exn)
    (rest : list (result json)) (sent0 : list Variables) :
  Forall2 (page_continues filter_type) pages cursors ->
  response_fails filter_type response e ->
  get_pr_comments owner repo pr_number filter_type
    (mkTransport ((Ok <$> pages) ++ response :: rest) sent0) =
  (Raise e,
   mkTransport rest (sent0 ++ (mkVariables owner repo pr_number <$> JNull :: cursors))).
Proof.
  intros Hpages Hfail. unfold get_pr_comments. cbn [pending sent].
  generalize (@nil Comment) as acc. generalize JNull as c0. revert sent0.
  induction Hpages as [|data c pages cursors Hc _ IH]; intros sent0 c0 acc.
  - cbn [fmap list_fmap app while_true].
    now rewrite (response_fails_body _ _ _ acc Hfail).
  - destruct (page_continues_body _ _ _ acc Hc) as (cs & _ & Hbody & Htrue).
    cbn [fmap list_fmap app while_true]. cbn [mbind result_bind].
    rewrite Hbody, Htrue. fold (fmap (M:=list) (@Ok json)).
    rewrite IH. cbn [fmap list_fmap]. now rewrite <- app_assoc.
Qed.

Lemma fetch_aborts_on_failure_witness :
  get_pr_comments "o" "r" 7 "all"
    (mkTransport
       ((Ok <$> [response_of (page_of [thread_of false [ghost_record]]
                                      (JBool true) (JStr "c1"))])
        ++ Ok (response_of (page_of [thread_of true [null_commit_record]]
                                    (JBool false) JNull))
        :: [Ok closing_page]) []) =
  (Raise AttributeError,
   mkTransport [Ok closing_page]
               ([] ++ (mkVariables "o" "r" 7 <$> JNull :: [JStr "c1"]))).
Proof.
  apply fetch_aborts_on_failure.
  - constructor; [|constructor].
    split; [now eexists|]. split; [reflexivity|]. split; reflexivity.
  - right. eexists. split; [reflexivity|]. left. reflexivity.
Defined.

Lemma while_true_requests (owner repo : string) (pr_number : Z) (filter_type : string)
    (pend : list (result json)) :
  forall (sent0 : list Variables) (acc : list Comment) (c0 : json),
  exists (cursors : list json) (consumed : list (result json)),
    let t' := (while_true owner repo pr_number filter_type pend sent0 acc c0).2 in
    sent t' = sent0 ++ (mkVariables owner repo pr_number <$> c0 :: cursors) /\
    Forall (fun c => py_truthy c = true) cursors /\
    pend = consumed ++ pending t' /\
    (List.length consumed = S (List.length cursors) \/
     (pending t' = [] /\ List.length consumed = List.length cursors)).
Proof.
  induction pend as [|response rest IH]; intros sent0 acc c0.
  - exists [], []. cbn. repeat split; auto.
  - cbn [while_true].
    destruct (response ≫= fun data => loop_body filter_type data acc)
      as [[acc' c']|e].
    + destruct (py_truthy c') eqn:Htrue.
      * destruct (IH (sent0 ++ [mkVariables owner repo pr_number c0]) acc' c')
          as (cursors & consumed & Hsent & Hcur & Hpend & Hlen).
        exists (c' :: cursors), (response :: consumed). cbn zeta in *.
        split; [|split; [|split]].
        -- rewrite Hsent. cbn [fmap list_fmap]. now rewrite <- app_assoc.
        -- now constructor.
        -- cbn [app]. now rewrite <- Hpend.
        -- cbn [List.length]. destruct Hlen as [Hlen|[Hnil Hlen]]; [left|right]; auto.
      * exists [], [response]. cbn. repeat split; auto.
    + exists [], [response]. cbn. repeat split; auto.
Qed.

(** X10.  The requests of get_pr_comments.  Whatever the responses, it
    sends at least one request after those already sent; every request
    carries the owner, repository and pull request number it was called
    with; the first asks for no cursor and every later one for a true
    cursor; and it consumes one response per request, in order, the last
    request alone possibly finding no response left. *)
Theorem requests_invariant
    (owner repo : string) (pr_number : Z) (filter_type : string) (t : Transport) :
  exists (requests : list Variables) (consumed : list (result json)),
    let t' := (get_pr_comments owner repo pr_number filter_type t).2 in
    sent t' = sent t ++ requests /\
    Forall (request_for owner repo pr_number) requests /\
    (exists later, var_review_after <$> requests = JNull :: later /\
                   Forall (fun c => py_truthy c = true) later) /\
    pending t = consumed ++ pending t' /\
    (List.length consumed = List.length requests \/
     (pending t' = [] /\ S (List.length consumed) = List.length requests)).
Proof.
  unfold get_pr_comments.
  destruct (while_true_requests owner repo pr_number filter_type (pending t)
              (sent t) [] JNull) as (cursors & consumed & Hsent & Hcur & Hpend & Hlen).
  cbn zeta in *.
  exists (mkVariables owner repo pr_number <$> JNull :: cursors), consumed.
  split; [exact Hsent|]. split; [|split; [|split]].
  - apply Forall_fmap, Forall_true. intros c. now split.
  - exists cursors. split; [|exact Hcur].
    rewrite <- list_fmap_compose. cbn [fmap list_fmap]. f_equal.
    now rewrite list_fmap_id.
  - exact Hpend.
  - rewrite length_fmap. cbn [List.length]. destruct Hlen as [Hlen|[Hnil Hlen]].
    + now left.
    + right. split; [assumption|]. now rewrite Hlen.
Qed.

(** ** The two filters compared *)

Lemma included_sublist (threads : list json) :
  forall cssu cssa : list (list Comment),
    traverse (included_of_thread "unresolved") threads = Ok cssu ->
    traverse (included_of_thread "all") threads = Ok cssa ->
    List.concat cssu `sublist_of` List.concat cssa.
Proof.
  induction threads as [|th threads IH]; intros cssu cssa Hu Ha.
  - simpl in Hu, Ha. inversion Hu; inversion Ha. constructor.
  - cbn [traverse] in Hu, Ha.
    apply bind_Ok in Hu as (cu & Hcu & Hu). apply bind_Ok in Hu as (cssu' & Hcssu & Hu).
    apply bind_Ok in Ha as (ca & Hca & Ha). apply bind_Ok in Ha as (cssa' & Hcssa & Ha).
    inversion Hu; inversion Ha; subst. cbn [List.concat].
    apply sublist_app; [|now apply IH].
    rewrite included_of_thread_other in Hca by discriminate.
    rewrite included_of_thread_unresolved in Hcu.
    apply bind_Ok in Hcu as (b & _ & Hcu). destruct b.
    + inversion Hcu. apply sublist_nil_l.
    + rewrite Hca in Hcu. now inversion Hcu.
Qed.

Lemma flatten_page_sublist (data : json) (cu ca : list Comment) :
  flatten_page "unresolved" data = Ok cu -> flatten_page "all" data = Ok ca ->
  cu `sublist_of` ca.
Proof.
  rewrite !flatten_page_concat. unfold page_included_comments, included_comments.
  intros Hu Ha.
  apply bind_Ok in Hu as (pr & Hpr & Hu). apply bind_Ok in Hu as (ths & Hths & Hu).
  apply bind_Ok in Hu as (cssu & Hcssu & Hu).
  apply bind_Ok in Ha as (pr' & Hpr' & Ha). rewrite Hpr in Hpr'. inversion Hpr'; subst pr'.
  apply bind_Ok in Ha as (ths' & Hths' & Ha). rewrite Hths in Hths'.
  inversion Hths'; subst ths'.
  apply bind_Ok in Ha as (cssa & Hcssa & Ha).
  inversion Hu; inversion Ha. now apply (included_sublist ths).
Qed.

Lemma while_true_sublist (owner repo : string) (pr_number : Z)
    (pend : list (result json)) :
  forall (sent0 : list Variables) (accu acca : list Comment) (c0 : json)
         (u a : list Comment) (tu ta : Transport),
    accu `sublist_of` acca ->
    while_true owner repo pr_number "unresolved" pend sent0 accu c0 = (Ok u, tu) ->
    while_true owner repo pr_number "all" pend sent0 acca c0 = (Ok a, ta) ->
    u `sublist_of` a /\ tu = ta.
Proof.
  induction pend as [|response rest IH]; intros sent0 accu acca c0 u a tu ta Hsub Hu Ha.
  - discriminate.
  - cbn [while_true] in Hu, Ha.
    destruct response as [data|e]; cbn [mbind result_bind] in Hu, Ha; [|discriminate].
    rewrite loop_body_eq in Hu, Ha.
    destruct (flatten_page "unresolved" data) as [cu|] eqn:Hcu;
      cbn [mbind result_bind] in Hu; [|discriminate].
    destruct (flatten_page "all" data) as [ca|] eqn:Hca;
      cbn [mbind result_bind] in Ha; [|discriminate].
    pose proof (flatten_page_sublist data cu ca Hcu Hca) as Hpage.
    destruct (next_cursor data) as [c|]; cbn [mbind result_bind] in Hu, Ha; [|discriminate].
    destruct (py_truthy c).
    + eapply IH; [|exact Hu|exact Ha]. now apply sublist_app.
    + inversion Hu; inversion Ha; subst. split; [now apply sublist_app|reflexivity].
Qed.

(** X11.  What the 'unresolved' filter returns is a subsequence of what
    'all' returns on the same responses (the same comments in the same
    order, some left out), and both runs send the same requests and consume
    the same responses. *)
Theorem unresolved_is_subsequence_of_all
    (owner repo : string) (pr_number : Z) (t tu ta : Transport)
    (u a : list Comment) :
  get_pr_comments owner repo pr_number "unresolved" t = (Ok u, tu) ->
  get_pr_comments owner repo pr_number "all" t = (Ok a, ta) ->
  u `sublist_of` a /\ tu = ta.
Proof.
  unfold get_pr_comments. intros Hu Ha.
  eapply while_true_sublist; [|exact Hu|exact Ha]. constructor.
Qed.

Lemma unresolved_is_subsequence_of_all_witness :
  [bob b_body b_date b_url]
    `sublist_of` [alice a_body a_date a_url; bob b_body b_date b_url] /\
  mkTransport [] [mkVariables "o" "r" 7 JNull]
    = mkTransport [] [mkVariables "o" "r" 7 JNull].
Proof.
  apply (unresolved_is_subsequence_of_all "o" "r" 7
           (mkTransport [Ok (response_of page_AB)] [])); reflexivity.
Defined.

Lemma thread_comments_set_resolved (v thread : json) :
  thread_comments (set_resolved v thread) = thread_comments thread.
Proof.
  destruct thread as [| | | | |m]; try reflexivity.
  unfold thread_comments, thread_records, set_resolved. cbn [py_getitem].
  now rewrite lookup_insert_ne by discriminate.
Qed.

(** X12.  Under a filter other than 'unresolved' the isResolved entries are
    not read: two pages whose threads differ only in those entries (set to
    anything, or added where there was none) flatten to the same result,
    or raise the same exception. *)
Theorem resolution_unread_by_other_filters
    (pr_data pr_data' : json) (filter_type : string) (threads threads' : list json) :
  filter_type <> "unresolved" ->
  page_threads pr_data = Ok threads ->
  page_threads pr_data' = Ok threads' ->
  Forall2 (fun thread thread' => exists v, thread' = set_resolved v thread)
          threads threads' ->
  _parse_response pr_data' filter_type = _parse_response pr_data filter_type.
Proof.
  intros Hne Hth Hth' Hsame.
  rewrite !parse_response_concat. unfold included_comments. rewrite Hth, Hth'.
  cbn [mbind result_bind].
  assert (traverse (included_of_thread filter_type) threads' =
          traverse (included_of_thread filter_type) threads) as ->; [|reflexivity].
  clear Hth Hth'. induction Hsame as [|th th' ths ths' [v ->] _ IH]; [reflexivity|].
  cbn [traverse]. rewrite IH, !included_of_thread_other by assumption.
  now rewrite thread_comments_set_resolved.
Qed.

Lemma resolution_unread_by_other_filters_witness :
  _parse_response
    (page_of [thread_of false [alice_record a_body a_date a_url];
              set_resolved JNull (thread_of false [bob_record b_body b_date b_url])]
             (JBool false) JNull) "all"
  = _parse_response page_AB "all".
Proof.
  apply (resolution_unread_by_other_filters page_AB _ "all"
           [thread_of true [alice_record a_body a_date a_url];
            thread_of false [bob_record b_body b_date b_url]]
           [thread_of false [alice_record a_body a_date a_url];
            set_resolved JNull (thread_of false [bob_record b_body b_date b_url])]).
  - discriminate.
  - reflexivity.
  - reflexivity.
  - constructor; [|constructor; [|constructor]].
    + exists (JBool false). reflexivity.
    + exists JNull. reflexivity.
Defined.

(** X13.  Under 'unresolved' every thread must carry an isResolved entry:
    a page holding a thread without one makes the flattener raise, even when
    that thread has no comment at all. *)
Theorem unresolved_needs_isResolved
    (pr_data : json) (threads : list json) (m : gmap string json) :
  page_threads pr_data = Ok threads ->
  JObj m ∈ threads ->
  m !! "isResolved" = None ->
  raises (_parse_response pr_data "unresolved").
Proof.
  intros Hth Hin Hnone.
  rewrite parse_response_concat. unfold included_comments. rewrite Hth.
  cbn [mbind result_bind].
  assert (raises (traverse (included_of_thread "unresolved") threads)) as [e ->];
    [|now exists e].
  apply (traverse_raises _ _ (JObj m) Hin).
  exists (KeyError "isResolved").
  rewrite included_of_thread_unresolved. unfold is_resolved. cbn [py_getitem].
  now rewrite Hnone.
Qed.

Lemma unresolved_needs_isResolved_witness :
  raises (_parse_response
            (page_of [obj [("comments", obj [("nodes", JArr [])])]] (JBool false) JNull)
            "unresolved").
Proof.
  apply (unresolved_needs_isResolved _
           [obj [("comments", obj [("nodes", JArr [])])]]
           (list_to_map [("comments", obj [("nodes", JArr [])])])).
  - reflexivity.
  - apply list_elem_of_here.
  - reflexivity.
Defined.

(** ** Pages split and merged *)

Lemma loop_body_page_of (filter_type : string) (threads : list json) (h c : json)
    (acc : list Comment) :
  loop_body filter_type (response_of (page_of threads h c)) acc =
  css ← traverse (included_of_thread filter_type) threads;
  Ok (acc ++ List.concat css, if py_truthy h then c else JNull).
Proof.
  rewrite loop_body_eq, flatten_page_concat.
  change (page_included_comments filter_type (response_of (page_of threads h c)))
    with (css ← traverse (included_of_thread filter_type) threads; Ok (List.concat css)).
  change (next_cursor (response_of (page_of threads h c)))
    with (if py_truthy h then Ok c else Ok JNull).
  destruct (traverse (included_of_thread filter_type) threads); [|reflexivity].
  cbn [mbind result_bind]. now destruct (py_truthy h).
Qed.

Lemma while_true_sent_indep (owner repo : string) (pr_number : Z)
    (filter_type : string) (pend : list (result json)) :
  forall (s1 s2 : list Variables) (acc : list Comment) (c0 : json),
    (while_true owner repo pr_number filter_type pend s1 acc c0).1 =
    (while_true owner repo pr_number filter_type pend s2 acc c0).1.
Proof.
  induction pend as [|response rest IH]; intros s1 s2 acc c0; [reflexivity|].
  cbn [while_true].
  destruct (response ≫= fun data => loop_body filter_type data acc)
    as [[acc' c']|e]; [|reflexivity].
  destruct (py_truthy c'); [apply IH|reflexivity].
Qed.

(** X14.  Pagination does not show in the result: serving the threads of
    one page as two consecutive pages, the first announcing the second with
    a true cursor, gives the same comments, or the same exception, as
    serving them as one page. *)
Theorem split_page_same_result
    (owner repo : string) (pr_number : Z) (filter_type : string)
    (threads1 threads2 : list json) (c h2 c2 : json)
    (rest : list (result json)) (sent0 : list Variables) :
  py_truthy c = true ->
  (get_pr_comments owner repo pr_number filter_type
     (mkTransport (Ok (response_of (page_of threads1 (JBool true) c))
                   :: Ok (response_of (page_of threads2 h2 c2)) :: rest) sent0)).1 =
  (get_pr_comments owner repo pr_number filter_type
     (mkTransport (Ok (response_of (page_of (threads1 ++ threads2) h2 c2)) :: rest)
                  sent0)).1.
Proof.
  intros Htrue. unfold get_pr_comments. cbn [pending sent while_true].
  cbn [mbind result_bind]. rewrite !loop_body_page_of, traverse_app.
  destruct (traverse (included_of_thread filter_type) threads1) as [css1|e];
    [|reflexivity].
  cbn [mbind result_bind py_truthy]. rewrite Htrue. cbn [while_true].
  cbn [mbind result_bind]. rewrite loop_body_page_of.
  destruct (traverse (included_of_thread filter_type) threads2) as [css2|e];
    [|reflexivity].
  cbn [mbind result_bind]. rewrite concat_app, app_assoc.
  destruct (py_truthy (if py_truthy h2 then c2 else JNull)); [|reflexivity].
  apply while_true_sent_indep.
Qed.

Lemma split_page_same_result_witness :
  (get_pr_comments "o" "r" 7 "all"
     (mkTransport
        (Ok (response_of (page_of [thread_of true [alice_record a_body a_date a_url]]
                                  (JBool true) (JStr "c1")))
         :: Ok (response_of (page_of [thread_of false [bob_record b_body b_date b_url]]
                                     (JBool false) JNull)) :: []) [])).1 =
  (get_pr_comments "o" "r" 7 "all"
     (mkTransport
        (Ok (response_of
               (page_of ([thread_of true [alice_record a_body a_date a_url]]
                         ++ [thread_of false [bob_record b_body b_date b_url]])
                        (JBool false) JNull)) :: []) [])).1.
Proof. apply split_page_same_result. reflexivity. Defined.

(** ** Which records yield a Comment *)

(** X15.  A record yields a given Comment exactly when it has an author
    entry (null and the like giving "unknown", a true one giving its login),
    body, createdAt and url entries, which are copied as they are, and an
    originalCommit that is absent or an object, whose oid and message are
    taken; every other record, one with a null or non-object originalCommit
    included, yields none. *)
Theorem Comment_of_characterised (m : gmap string json) (cm : Comment) :
  Comment_of (JObj m) = Ok cm <->
  (exists a, m !! "author" = Some a /\
             (if py_truthy a then py_getitem a "login" else Ok (JStr "unknown"))
             = Ok (author cm)) /\
  m !! "body" = Some (body cm) /\
  m !! "createdAt" = Some (created_at cm) /\
  m !! "url" = Some (url cm) /\
  ((m !! "originalCommit" = None /\ commit_id cm = JNull /\ commit_message cm = JNull) \/
   (exists d, m !! "originalCommit" = Some (JObj d) /\
              commit_id cm = default JNull (d !! "oid") /\
              commit_message cm = default JNull (d !! "message"))).
Proof.
  split.
  - intros Hcm.
    apply Comment_of_Ok_fields in Hcm as (a & Ha & Hau & Hb & Hd & Hu & Hoid & Hmsg).
    split; [now exists a|]. repeat (split; [assumption|]).
    destruct (m !! "originalCommit") as [[| | | | |d]|]; try discriminate.
    + right. exists d. simpl in Hoid, Hmsg. split; [reflexivity|]. split; congruence.
    + left. simpl in Hoid, Hmsg. rewrite lookup_empty in Hoid, Hmsg.
      simpl in Hoid, Hmsg. split; [reflexivity|]. split; congruence.
  - intros ((a & Ha & Hau) & Hb & Hd & Hu & Hcommit).
    unfold Comment_of. cbn [py_get py_getitem mbind result_bind].
    rewrite Ha. cbn [mbind result_bind]. rewrite Hau. cbn [mbind result_bind].
    rewrite Hb, Hd, Hu. cbn [mbind result_bind].
    destruct cm as [au b d u ci cmsg]. cbn [author body created_at url
                                           commit_id commit_message] in *.
    destruct Hcommit as [(-> & -> & ->) | (o & -> & -> & ->)].
    + cbn. now rewrite lookup_empty.
    + reflexivity.
Qed.

Lemma Comment_of_characterised_witness :
  Comment_of ghost_record
  = Ok (mkComment (JStr "unknown") a_body a_date a_url JNull JNull).
Proof.
  apply (Comment_of_characterised
           (list_to_map [("author", JNull); ("body", a_body);
                         ("createdAt", a_date); ("url", a_url)])).
  split; [exists JNull; split; reflexivity|].
  repeat (split; [reflexivity|]).
  left. repeat split.
Defined.
